(** * Heart-health classification gateway and client aggregator

    A shallow embedding of [Backend/server.js] (the Express relay in front of
    the Python inference service) and of the request logic of
    [Frontend/src/Pages/Prediction.jsx] (the form component that validates the
    patient record and fans out one request per classifier and model).

    The embedding keeps the JavaScript control flow: a route handler is a
    computation that may send a reply, throw, or await the upstream service,
    and the React component is a computation that emits state updates and
    [fetch] calls in program order. *)

From Stdlib Require Import ZArith String Ascii List Bool Lia.
From Stdlib Require Import DecimalString.
From stdpp Require Import gmap strings list.

Import ListNotations.
Set Warnings "-register-all".
Local Open Scope string_scope.
Local Open Scope Z_scope.

(** ** JavaScript values *)

Module JS.

(** A JSON number, kept as the decimal it denotes, [mantissa * 10 ^ exponent].
    The program only parses, forwards and prints numbers. *)
Record number := Num { mantissa : Z; exponent : Z }.

Inductive json :=
| JNull
| JBool (b : bool)
| JNum (n : number)
| JStr (s : string)
| JArr (items : list json)
| JObj (fields : list (string * json)).

(** A JavaScript value that came from JSON, or [undefined] ([None]). *)
Definition value := option json.

Definition undefined : value := None.

(** An exception as the [catch] blocks of the gateway inspect it:
    [error.response] (set by axios when the upstream answered with a status
    outside 2xx), [error.code] (set for transport failures) and
    [error.message]. *)
Record response := Response { status : Z; data : value }.

Record error := Error {
  error_response : option response;
  code : option string;
  message : string
}.

Definition TypeError (msg : string) : error :=
  {| error_response := None; code := None; message := msg |}.

(** ToBoolean. *)
Definition truthy_json (j : json) : bool :=
  match j with
  | JNull => false
  | JBool b => b
  | JNum n => negb (mantissa n =? 0)
  | JStr s => negb (String.eqb s "")
  | JArr _ => true
  | JObj _ => true
  end.

Definition truthy (v : value) : bool :=
  match v with
  | None => false
  | Some j => truthy_json j
  end.

(** [a || b] where [b] is a literal. *)
Definition or_else (a : value) (b : json) : json :=
  match a with
  | Some j => if truthy_json j then j else b
  | None => b
  end.

Definition index_name (i : nat) : string :=
  NilEmpty.string_of_uint (Nat.to_uint i).

Definition index_names (n : nat) : list string :=
  List.map index_name (seq 0 n).

(** [Object.keys(v)] for a value that is neither [null] nor [undefined]:
    the own enumerable property names. *)
Definition Object_keys (j : json) : list string :=
  match j with
  | JObj fields => List.map fst fields
  | JArr items => index_names (List.length items)
  | JStr s => index_names (String.length s)
  | JNull | JBool _ | JNum _ => []
  end.

Fixpoint assoc {A : Type} (k : string) (l : list (string * A)) : option A :=
  match l with
  | [] => None
  | (k', a) :: rest => if String.eqb k k' then Some a else assoc k rest
  end.

(** [v.name] for the property names the program reads from upstream data
    ([prediction], [probabilities], [class_labels], [model], [error],
    [predictions], [models], [success]). None of them is defined on a
    built-in prototype, so only own properties of an object answer; reading
    a property of [null] or [undefined] throws. *)
Definition get (v : value) (name : string) : error + value :=
  match v with
  | None => inl (TypeError ("Cannot read properties of undefined (reading '" +:+ name +:+ "')"))
  | Some JNull => inl (TypeError ("Cannot read properties of null (reading '" +:+ name +:+ "')"))
  | Some (JObj fields) => inr (assoc name fields)
  | Some _ => inr None
  end.

(** [o[k] = v] where [k] is a property of [o] already, or the last name
    in enumeration order (as when a fresh object is filled in the
    enumeration order of another): an existing property keeps its place, a
    new one goes last. *)
Fixpoint set_member {A : Type} (k : string) (v : A) (o : list (string * A))
  : list (string * A) :=
  match o with
  | [] => [(k, v)]
  | (k', v') :: rest =>
      if String.eqb k k' then (k, v) :: rest else (k', v') :: set_member k v rest
  end.

(** The property names that are array indices: the canonical decimal text
    of an integer from 0 to 2^32 - 2. An object enumerates them first, in
    ascending order, and its other names after them in creation order. *)
Definition array_index (k : string) : option N :=
  match NilEmpty.uint_of_string k with
  | Some u =>
      let i := N.of_uint u in
      if String.eqb (NilEmpty.string_of_uint (N.to_uint i)) k && (i <? 4294967295)%N
      then Some i
      else None
  | None => None
  end.

(** A new array index [k] (of value [i]) takes its place among the array
    indices of [o]: after the smaller ones, before everything else. *)
Fixpoint insert_index {A : Type} (i : N) (k : string) (v : A) (o : list (string * A))
  : list (string * A) :=
  match o with
  | [] => [(k, v)]
  | (k', v') :: rest =>
      match array_index k' with
      | Some j => if (j <? i)%N then (k', v') :: insert_index i k v rest else (k, v) :: o
      | None => (k, v) :: o
      end
  end.

(** [o[k] = v] for any name, on an object kept as its own properties in
    enumeration order: an existing property keeps its place; a new array
    index is placed among the indices; any other new name goes last. *)
Definition assign {A : Type} (k : string) (v : A) (o : list (string * A))
  : list (string * A) :=
  match assoc k o, array_index k with
  | None, Some i => insert_index i k v o
  | _, _ => set_member k v o
  end.

(** [Array.prototype.join]. *)
Definition join (sep : string) (l : list string) : string := String.concat sep l.

(** *** [Date.prototype.toISOString]

    [new Date()] holds a time value, the milliseconds since the epoch, at
    most 8.64e15 in absolute value. ECMAScript prints it as
    [YYYY-MM-DDTHH:mm:ss.sssZ], the year widened to a sign and six digits
    outside 0 to 9999. *)

Definition msPerDay : Z := 86400000.

(** Year within a 400-year era (0 to 400, the era starting on 1 March),
    month (1 to 12) and day of the month of the [doe]-th day of the era. *)
Definition civil_within_era (doe : Z) : Z * Z * Z :=
  let yoe := (doe - doe / 1460 + doe / 36524 - doe / 146096) / 365 in
  let doy := doe - (365 * yoe + yoe / 4 - yoe / 100) in
  let mp := (5 * doy + 2) / 153 in
  let d := doy - (153 * mp + 2) / 5 + 1 in
  let m := if mp <? 10 then mp + 3 else mp - 9 in
  (yoe + (if m <=? 2 then 1 else 0), m, d).

(** Year, month and day of the month of a day number counted from
    1970-01-01, in the proleptic Gregorian calendar. *)
Definition civil_from_days (day : Z) : Z * Z * Z :=
  let z := day + 719468 in
  let '(y, m, d) := civil_within_era (z mod 146097) in
  (y + (z / 146097) * 400, m, d).

Definition digit (n : Z) : ascii :=
  ascii_of_nat (48 + Z.to_nat (n mod 10)).

(** The last [width] decimal digits of [n]: [n] padded with zeros on the
    left when [0 <= n < 10 ^ width]. *)
Fixpoint digits (width : nat) (n : Z) : string :=
  match width with
  | O => ""
  | S k => digits k (n / 10) +:+ String (digit n) ""
  end.

Record date_time := DateTime {
  year : Z; month : Z; day : Z;
  hours : Z; minutes : Z; seconds : Z; milliseconds : Z
}.

Definition utc_fields (t : Z) : date_time :=
  let '(y, m, d) := civil_from_days (t / msPerDay) in
  let ms := t mod msPerDay in
  {| year := y; month := m; day := d;
     hours := ms / 3600000;
     minutes := (ms / 60000) mod 60;
     seconds := (ms / 1000) mod 60;
     milliseconds := ms mod 1000 |}.

Definition format_year (y : Z) : string :=
  if (0 <=? y) && (y <=? 9999) then digits 4 y
  else (if y <? 0 then "-" else "+") +:+ digits 6 (Z.abs y).

Definition format_ISO (f : date_time) : string :=
  format_year (year f) +:+ "-" +:+ digits 2 (month f) +:+ "-" +:+ digits 2 (day f)
  +:+ "T" +:+ digits 2 (hours f) +:+ ":" +:+ digits 2 (minutes f)
  +:+ ":" +:+ digits 2 (seconds f) +:+ "." +:+ digits 3 (milliseconds f) +:+ "Z".

Definition toISOString (t : Z) : string := format_ISO (utc_fields t).

(** A time value a [Date] can hold. *)
Definition time_value (t : Z) : Prop :=
  -8640000000000000 <= t <= 8640000000000000.

(** The calendar-date-and-time form of ISO 8601, in UTC, the year in four
    digits or expanded to six. *)
Definition ISO8601 (s : string) : Prop :=
  exists f : date_time,
    s = format_ISO f /\
    -999999 <= year f <= 999999 /\ 1 <= month f <= 12 /\ 1 <= day f <= 31 /\
    0 <= hours f <= 23 /\ 0 <= minutes f <= 59 /\ 0 <= seconds f <= 59 /\
    0 <= milliseconds f <= 999.

End JS.

(** ** Control flow

    The shape shared by the route handlers and the component's event
    handlers: straight-line code that logs what it does to the outside, may
    [return] early, may [throw], and has [try]/[catch]/[finally]. *)

Module Control.

Inductive step (R X A : Type) :=
| Next (a : A)
| Return (r : R)
| Thrown (x : X).
Arguments Next {R X A} a.
Arguments Return {R X A} r.
Arguments Thrown {R X A} x.

(** A computation extends the log of effects performed so far. *)
Definition comp (E R X A : Type) := list E -> step R X A * list E.

Section Combinators.
Context {E R X : Type}.

Definition ret {A} (a : A) : comp E R X A := fun log => (Next a, log).

Definition bind {A B} (m : comp E R X A) (k : A -> comp E R X B) : comp E R X B :=
  fun log =>
    match m log with
    | (Next a, log') => k a log'
    | (Return r, log') => (Return r, log')
    | (Thrown x, log') => (Thrown x, log')
    end.

Definition emit (e : E) : comp E R X unit := fun log => (Next tt, (log ++ [e])%list).

Definition return_ {A} (r : R) : comp E R X A := fun log => (Return r, log).

Definition throw {A} (x : X) : comp E R X A := fun log => (Thrown x, log).

Definition lift {A} (r : X + A) : comp E R X A :=
  match r with
  | inl x => throw x
  | inr a => ret a
  end.

(** [try { body } catch (x) { h x }]. *)
Definition try_catch {A} (body : comp E R X A) (h : X -> comp E R X A) : comp E R X A :=
  fun log =>
    match body log with
    | (Thrown x, log') => h x log'
    | other => other
    end.

(** [try { body } finally { fin }]: [fin] runs however [body] ends. *)
Definition try_finally {A} (body : comp E R X A) (fin : comp E R X unit) : comp E R X A :=
  fun log =>
    match body log with
    | (outcome, log') =>
        match fin log' with
        | (Next _, log'') => (outcome, log'')
        | (Return r, log'') => (Return r, log'')
        | (Thrown x, log'') => (Thrown x, log'')
        end
    end.

(** [if (c) { m }]. *)
Definition when (c : bool) (m : comp E R X unit) : comp E R X unit :=
  if c then m else ret tt.

(** [for (const a of l) { acc = body a acc }]. *)
Fixpoint for_of {A S} (l : list A) (body : A -> S -> comp E R X S) (acc : S)
  : comp E R X S :=
  match l with
  | [] => ret acc
  | a :: rest => bind (body a acc) (for_of rest body)
  end.

End Combinators.

Declare Scope comp_scope.
Delimit Scope comp_scope with comp.
Notation "x <- m ;; k" := (bind m (fun x => k))
  (at level 100, m at next level, right associativity) : comp_scope.
Notation "m ;; k" := (bind m (fun _ => k))
  (at level 100, right associativity) : comp_scope.

End Control.

(** ** The gateway: [Backend/server.js] *)

Module Server.
Import JS Control.

(** [const AVAILABLE_CLASSIFIERS = { ... }], own properties in source order. *)
Definition AVAILABLE_CLASSIFIERS : list (string * list string) :=
  [ ("BP_Class", ["GradientBoosting"; "LogisticRegression"; "RandomForest"]);
    ("Diabetes_Class", ["GradientBoosting"; "LogisticRegression"; "RandomForest"]);
    ("Dyslipidemia_Class", ["GradientBoosting"; "LogisticRegression"; "RandomForest"]) ].

(** The object literal inherits from [Object.prototype]; these are the
    property names a lookup finds there (ECMAScript, with Annex B). *)
Definition Object_prototype : list string :=
  [ "constructor"; "hasOwnProperty"; "isPrototypeOf"; "propertyIsEnumerable";
    "toLocaleString"; "toString"; "valueOf";
    "__defineGetter__"; "__defineSetter__"; "__lookupGetter__"; "__lookupSetter__";
    "__proto__" ].

(** What [AVAILABLE_CLASSIFIERS[key]] evaluates to. *)
Inductive property :=
| Undefined
| Models (models : list string)
| Inherited.

Definition mem (k : string) (l : list string) : bool :=
  existsb (String.eqb k) l.

(** [AVAILABLE_CLASSIFIERS[key]]: own property first, then the prototype. *)
Definition AVAILABLE_CLASSIFIERS_at (key : string) : property :=
  match assoc key AVAILABLE_CLASSIFIERS with
  | Some models => Models models
  | None => if mem key Object_prototype then Inherited else Undefined
  end.

(** An array, a function and an object are all truthy. *)
Definition truthy_property (p : property) : bool :=
  match p with
  | Undefined => false
  | Models _ => true
  | Inherited => true
  end.

(** [req.query.model] under Express's default query parser: absent, a
    string, or (for repeated and bracketed parameters) an array or object. *)
Inductive query_value :=
| QAbsent
| QString (s : string)
| QArray (items : list string)
| QObject.

Definition truthy_query (q : query_value) : bool :=
  match q with
  | QAbsent => false
  | QString s => negb (String.eqb s "")
  | QArray _ => true
  | QObject => true
  end.

(** [`${model}`]. *)
Definition query_to_string (q : query_value) : string :=
  match q with
  | QAbsent => "undefined"
  | QString s => s
  | QArray items => join "," items
  | QObject => "[object Object]"
  end.

Record request := Request {
  params_classifier : string;
  query_model : query_value;
  body : value
}.

Inductive http_method := GET | POST.

(** One call of [axios.post] or [axios.get]. *)
Record upstream_call := Call {
  method : http_method;
  url : string;
  payload : value;
  timeout : Z
}.

Inductive axios_result :=
| Fulfilled (r : response)
| Rejected (e : error).

(** What a handler reads from outside: the configured base URL, the
    upstream service as axios presents it, and the time value of
    [new Date()] when the reply is built. *)
Record world := World {
  PYTHON_SERVICE_URL : string;
  axios : upstream_call -> axios_result;
  now : Z
}.

(** The argument of [res.status(s).json(...)]: an object literal whose
    members may evaluate to [undefined]. *)
Record reply := Reply {
  reply_status : Z;
  reply_json : list (string * value)
}.

(** *** Handler computations

    A handler logs the upstream calls it issues, returns early with the
    reply it sends, and throws JavaScript errors. *)

Definition handler (A : Type) := comp upstream_call reply error A.

(** [return res.status(s).json(o)], and a final [res.json(o)]. *)
Definition send {A} (s : Z) (o : list (string * value)) : handler A :=
  return_ (Reply s o).

(** [await axios.post(...)] / [await axios.get(...)]. *)
Definition await (w : world) (c : upstream_call) : handler response :=
  (emit c;;
   match axios w c with
   | Fulfilled r => ret r
   | Rejected e => throw e
   end)%comp.

(** The outcome of a route handler: the reply sent, if any, and the
    upstream calls it issued. An exception that leaves the handler sends
    nothing. *)
Definition run {A} (h : handler A) : option reply * list upstream_call :=
  match h [] with
  | (Return r, log) => (Some r, log)
  | (_, log) => (None, log)
  end.

(** *** Route handlers *)

Definition failure (msg : json) : list (string * value) :=
  [ ("success", Some (JBool false)); ("error", Some msg) ].

(** [Object.keys(AVAILABLE_CLASSIFIERS).join(', ')]. *)
Definition classifier_names : string :=
  join ", " (List.map fst AVAILABLE_CLASSIFIERS).

Definition invalid_classifier : list (string * value) :=
  failure (JStr ("Invalid classifier. Must be one of: " +:+ classifier_names)).

(** [AVAILABLE_CLASSIFIERS[classifier].includes(model)]: only an array has
    [includes]; on an inherited member the call throws. *)
Definition includes (p : property) (model : query_value) : error + bool :=
  match p with
  | Models models =>
      inr (match model with QString s => mem s models | _ => false end)
  | Inherited => inl (TypeError "AVAILABLE_CLASSIFIERS[classifier].includes is not a function")
  | Undefined => inl (TypeError "Cannot read properties of undefined (reading 'includes')")
  end.

(** [AVAILABLE_CLASSIFIERS[classifier].join(', ')]. *)
Definition join_models (p : property) : error + string :=
  match p with
  | Models models => inr (join ", " models)
  | Inherited => inl (TypeError "AVAILABLE_CLASSIFIERS[classifier].join is not a function")
  | Undefined => inl (TypeError "Cannot read properties of undefined (reading 'join')")
  end.

(** [!inputData || Object.keys(inputData).length === 0]. *)
Definition no_input (inputData : value) : bool :=
  match inputData with
  | None => true
  | Some j => negb (truthy_json j) || Nat.eqb (List.length (Object_keys j)) 0
  end.

(** [error.code === 'ECONNREFUSED']. *)
Definition connection_refused (e : error) : bool :=
  match code e with
  | Some c => String.eqb c "ECONNREFUSED"
  | None => false
  end.

Definition service_down : list (string * value) :=
  failure (JStr "Python service is not running. Please start the Flask server.").

(** [if (error.response) { return res.status(error.response.status).json(
    { success: false, error: error.response.data.error || fallback }) }]. *)
Definition pass_through (e : error) (fallback : string) : handler unit :=
  match error_response e with
  | Some r =>
      (upstream_error <- lift (get (data r) "error");;
       send (status r) (failure (or_else upstream_error (JStr fallback))))%comp
  | None => ret tt
  end.

(** [app.post('/api/predict/:classifier', ...)]. *)
Definition predict (w : world) (req : request) : handler unit :=
  let classifier := params_classifier req in
  let model := query_model req in
  let inputData := body req in
  try_catch
    (when (negb (truthy_property (AVAILABLE_CLASSIFIERS_at classifier)))
       (send 400 invalid_classifier);;
     invalid_model <-
       (if truthy_query model
        then (found <- lift (includes (AVAILABLE_CLASSIFIERS_at classifier) model);;
              ret (negb found))
        else ret false);;
     when invalid_model
       (names <- lift (join_models (AVAILABLE_CLASSIFIERS_at classifier));;
        send 400 (failure (JStr ("Invalid model type. Must be one of: " +:+ names))));;
     when (no_input inputData)
       (send 400 (failure (JStr "No input data provided")));;
     let url := PYTHON_SERVICE_URL w +:+ "/predict/" +:+ classifier in
     let url := if truthy_query model
                then url +:+ "?model=" +:+ query_to_string model
                else url in
     response <- await w (Call POST url inputData 10000);;
     prediction <- lift (get (data response) "prediction");;
     probabilities <- lift (get (data response) "probabilities");;
     class_labels <- lift (get (data response) "class_labels");;
     model_used <- lift (get (data response) "model");;
     send 200
       [ ("success", Some (JBool true));
         ("classifier", Some (JStr classifier));
         ("prediction", prediction);
         ("probabilities", probabilities);
         ("class_labels", class_labels);
         ("model", model_used);
         ("input", inputData);
         ("timestamp", Some (JStr (toISOString (now w)))) ])%comp
    (fun error =>
       (pass_through error "Prediction failed";;
        when (connection_refused error) (send 503 service_down);;
        send 500 (failure (JStr "Internal server error during prediction")))%comp).

(** [app.post('/api/predict-all', ...)]. *)
Definition predict_all (w : world) (req : request) : handler unit :=
  let inputData := body req in
  try_catch
    (when (no_input inputData)
       (send 400 (failure (JStr "No input data provided")));;
     response <- await w (Call POST (PYTHON_SERVICE_URL w +:+ "/predict-all") inputData 15000);;
     predictions <- lift (get (data response) "predictions");;
     send 200
       [ ("success", Some (JBool true));
         ("predictions", predictions);
         ("input", inputData);
         ("timestamp", Some (JStr (toISOString (now w)))) ])%comp
    (fun error =>
       (pass_through error "Batch prediction failed";;
        when (connection_refused error) (send 503 service_down);;
        send 500 (failure (JStr "Internal server error during batch prediction")))%comp).

(** [app.post('/api/compare-models/:classifier', ...)]. *)
Definition compare_models (w : world) (req : request) : handler unit :=
  let classifier := params_classifier req in
  let inputData := body req in
  try_catch
    (when (negb (truthy_property (AVAILABLE_CLASSIFIERS_at classifier)))
       (send 400 invalid_classifier);;
     when (no_input inputData)
       (send 400 (failure (JStr "No input data provided")));;
     response <- await w (Call POST (PYTHON_SERVICE_URL w +:+ "/compare-models/" +:+ classifier)
                            inputData 15000);;
     models <- lift (get (data response) "models");;
     send 200
       [ ("success", Some (JBool true));
         ("classifier", Some (JStr classifier));
         ("models", models);
         ("input", inputData);
         ("timestamp", Some (JStr (toISOString (now w)))) ])%comp
    (fun error =>
       (pass_through error "Model comparison failed";;
        send 500 (failure (JStr "Internal server error during model comparison")))%comp).

(** The own enumerable properties that [...v] copies. *)
Definition own_members (v : value) : list (string * value) :=
  match v with
  | Some (JObj fields) => List.map (fun kv => (fst kv, Some (snd kv))) fields
  | Some (JArr items) => combine (index_names (List.length items)) (List.map Some items)
  | Some (JStr s) =>
      combine (index_names (String.length s))
              (List.map (fun c => Some (JStr (String c ""))) (list_ascii_of_string s))
  | _ => []
  end.

(** [{ ...o, ...v }]: the members of [o], then each own member of [v]
    defined on the new object in turn. *)
Definition spread (o : list (string * value)) (v : value) : list (string * value) :=
  fold_left (fun acc kv => assign (fst kv) (snd kv) acc) (own_members v) o.

(** [app.get('/api/model-info/:classifier', ...)]. *)
Definition model_info (w : world) (req : request) : handler unit :=
  let classifier := params_classifier req in
  let model := query_model req in
  try_catch
    (when (negb (truthy_property (AVAILABLE_CLASSIFIERS_at classifier)))
       (send 400 invalid_classifier);;
     let url := PYTHON_SERVICE_URL w +:+ "/model-info/" +:+ classifier in
     let url := if truthy_query model
                then url +:+ "?model=" +:+ query_to_string model
                else url in
     response <- await w (Call GET url undefined 5000);;
     send 200 (spread [ ("success", Some (JBool true)) ] (data response)))%comp
    (fun error =>
       send 500 (failure (JStr "Failed to retrieve model information"))).

End Server.

(** ** The client aggregator: [Frontend/src/Pages/Prediction.jsx] *)

Module Prediction.
Import JS Control.

Definition CLASSIFIERS : list (string * string) :=
  [ ("BP_Class", "Blood Pressure");
    ("Diabetes_Class", "Diabetes");
    ("Dyslipidemia_Class", "Dyslipidemia (Cholesterol)") ].

Definition MODEL_TYPES : list string :=
  [ "GradientBoosting"; "LogisticRegression"; "RandomForest" ].

Definition API_BASE_URL : string := "http://localhost:3000".

(** The [label] members of [FIELD_CONFIG], in source order. *)
Definition FIELD_CONFIG : list (string * string) :=
  [ ("age", "Age");
    ("sex", "Sex");
    ("weight", "Weight (kg)");
    ("height", "Height (cm)");
    ("BMI", "BMI");
    ("smoking", "Smoking Status");
    ("alcohol_consumption", "Alcohol Consumption");
    ("physical_activity", "Physical Activity Level");
    ("family_history", "Family History");
    ("cholesterol_medication", "Cholesterol Medication") ].

(** [FIELD_CONFIG[key]?.label || key]. *)
Definition field_label (key : string) : string :=
  match assoc key FIELD_CONFIG with
  | Some label => if String.eqb label "" then key else label
  | None => key
  end.

(** The [inputs] state: the form's fields, each holding the text typed. *)
Definition initial_inputs : list (string * string) :=
  [ ("age", ""); ("sex", ""); ("weight", ""); ("height", ""); ("BMI", "");
    ("smoking", ""); ("alcohol_consumption", ""); ("physical_activity", "");
    ("family_history", ""); ("cholesterol_medication", "") ].

(** [setInputs(prev => ({ ...prev, [name]: value }))]. *)
Definition handleChange (name value : string) (inputs : list (string * string))
  : list (string * string) :=
  assign name value inputs.

(** *** Numbers as [parseFloat] yields them *)

(** A finite double is kept as the decimal it equals exactly. *)
Inductive parsed :=
| NaN
| Infinity (negative : bool)
| Finite (n : number).

Definition isNaN (x : parsed) : bool :=
  match x with
  | NaN => true
  | _ => false
  end.

Definition is_digit (c : ascii) : bool :=
  let n := nat_of_ascii c in Nat.leb 48 n && Nat.leb n 57.

Definition is_space (c : ascii) : bool :=
  let n := nat_of_ascii c in (Nat.leb 9 n && Nat.leb n 13) || Nat.eqb n 32.

Fixpoint skip_spaces (s : string) : string :=
  match s with
  | String c rest => if is_space c then skip_spaces rest else s
  | EmptyString => s
  end.

(** The leading decimal digits of [s] and what follows them. *)
Fixpoint take_digits (s : string) : string * string :=
  match s with
  | String c rest =>
      if is_digit c
      then let '(ds, tail) := take_digits rest in (String c ds, tail)
      else (EmptyString, s)
  | EmptyString => (EmptyString, s)
  end.

Fixpoint digits_value (acc : Z) (ds : string) : Z :=
  match ds with
  | String c rest => digits_value (10 * acc + (Z.of_nat (nat_of_ascii c) - 48)) rest
  | EmptyString => acc
  end.

Definition take_sign (s : string) : bool * string :=
  match s with
  | String "-" rest => (true, rest)
  | String "+" rest => (false, rest)
  | _ => (false, s)
  end.

(** The value of an exponent part at the head of [s], 0 when there is none. *)
Definition exponent_part (s : string) : Z :=
  match s with
  | String c rest =>
      if Ascii.eqb c "e" || Ascii.eqb c "E"
      then let '(negative, rest) := take_sign rest in
           let '(ds, _) := take_digits rest in
           if negative then - digits_value 0 ds else digits_value 0 ds
      else 0
  | EmptyString => 0
  end.

(** [q * 2 ^ k <= p], for [k] of either sign. *)
Definition reaches (p q k : Z) : bool :=
  if 0 <=? k then q * 2 ^ k <=? p else q <=? p * 2 ^ (- k).

(** [p / (q * 2 ^ k)] rounded to the nearest integer, ties to even. *)
Definition nearest_even (p q k : Z) : Z :=
  let num := if 0 <=? k then p else p * 2 ^ (- k) in
  let den := if 0 <=? k then q * 2 ^ k else q in
  let a := num / den in
  let r := num mod den in
  if 2 * r <? den then a
  else if den <? 2 * r then a + 1
  else if Z.even a then a else a + 1.

(** The trailing zeros of a decimal mantissa moved into its exponent. *)
Fixpoint strip_zeros (fuel : nat) (m e : Z) : number :=
  match fuel with
  | O => Num m e
  | S fuel =>
      if (m mod 10 =? 0) && negb (m =? 0)
      then strip_zeros fuel (m / 10) (e + 1)
      else Num m e
  end.

(** The decimal that [n * 2 ^ k] equals, for [n >= 0]. *)
Definition dyadic (n k : Z) : number :=
  if n =? 0 then Num 0 0
  else
    let m := if 0 <=? k then n * 2 ^ k else n * 5 ^ (- k) in
    strip_zeros (S (Z.to_nat (Z.log2 m))) m (if 0 <=? k then 0 else k).

(** The Number value for [m * 10 ^ e], [m >= 0]: the nearest double (53
    significant bits, binary exponent at least -1074, ties to even), and
    [Infinity] from [2 ^ 1024] on. The sign of a zero is dropped. *)
Definition to_double (negative : bool) (m e : Z) : parsed :=
  if m =? 0 then Finite (Num 0 0) else
  let p := if 0 <=? e then m * 10 ^ e else m in
  let q := if 0 <=? e then 1 else 10 ^ (- e) in
  let l := Z.log2 p - Z.log2 q in
  let top := if reaches p q l then l else l - 1 in
  let k := Z.max (top - 52) (-1074) in
  let n := nearest_even p q k in
  if (971 <? k) || ((k =? 971) && (n =? 2 ^ 53)) then Infinity negative
  else
    let d := dyadic n k in
    Finite (Num (if negative then - mantissa d else mantissa d) (exponent d)).

(** ECMAScript's [parseFloat] on text whose white space is ASCII: skip
    leading white space, then read the longest prefix that is a decimal
    literal, and round its value to a double; [NaN] when there is no such
    prefix. *)
Definition parseFloat_ascii (s : string) : parsed :=
  let '(negative, s) := take_sign (skip_spaces s) in
  if String.prefix "Infinity" s then Infinity negative else
  let '(int_part, s) := take_digits s in
  let '(frac_part, s) :=
    match s with
    | String "." rest => take_digits rest
    | _ => (EmptyString, s)
    end in
  if String.eqb int_part "" && String.eqb frac_part "" then NaN else
  to_double negative (digits_value 0 (int_part +:+ frac_part))
            (exponent_part s - Z.of_nat (String.length frac_part)).

(** *** The browser *)

(** The argument of [fetch]: the URL, the method, and the object whose
    [JSON.stringify] is the body. *)
Record fetch_request := FetchRequest {
  fetch_url : string;
  fetch_method : string;
  fetch_body : list (string * parsed)
}.

(** [await response.json()]: the parsed body, or a [SyntaxError]. *)
Inductive body_result :=
| Json (data : json)
| NotJson (message : string).

(** [await fetch(...)]: a response with its [ok] flag, or a rejection. *)
Inductive fetch_result :=
| Responded (ok : bool) (body : body_result)
| Failed (message : string).

(** What the component reads from its environment. [parseFloat] and
    [String] are the built-ins; [fetch] is the network as this run sees it. *)
Record browser := Browser {
  parseFloat : string -> parsed;
  String_ : json -> string;
  fetch : fetch_request -> fetch_result
}.

(** *** State and effects *)

(** One cell of the complete analysis: [{ prediction, probabilities,
    class_labels }] or [{ error }]. *)
Inductive entry :=
| Result (prediction probabilities class_labels : value)
| ErrorEntry (error : json).

(** What [setPrediction] is given: the single-prediction response body, or
    [{ success: true, predictions, input }]. *)
Inductive displayed :=
| Single (data : json)
| Complete (predictions : gmap string (gmap string entry))
           (input : list (string * parsed)).

Inductive event :=
| SetLoading (loading : bool)
| SetError (error : option string)
| SetPrediction (prediction : option displayed)
| Fetch (request : fetch_request).

(** An event handler of the component; what it throws is the [message] of
    the error. *)
Definition action (A : Type) := comp event unit string A.

Definition member (data : json) (name : string) : action value :=
  match get (Some data) name with
  | inl e => throw (message e)
  | inr v => ret v
  end.

(** [await fetch(url, { method: "POST", headers, body: JSON.stringify(o) })]
    followed by [await response.json()]. *)
Definition post (b : browser) (url : string) (o : list (string * parsed))
  : action (bool * json) :=
  let request := FetchRequest url "POST" o in
  (emit (Fetch request);;
   match fetch b request with
   | Failed msg => throw msg
   | Responded ok (NotJson msg) => throw msg
   | Responded ok (Json data) => ret (ok, data)
   end)%comp.

(** *** [validateInputs] and [prepareInputData] *)

Definition validateInputs (inputs : list (string * string)) : action bool :=
  let emptyFields := List.filter (fun kv => String.eqb (snd kv) "") inputs in
  if Nat.ltb 0 (List.length emptyFields)
  then
    let fieldNames := join ", " (List.map (fun kv => field_label (fst kv)) emptyFields) in
    (emit (SetError (Some ("Please fill in all fields: " +:+ fieldNames)));;
     ret false)%comp
  else ret true.

(** [numericInputs[key] = numValue] for the entries of [inputs] in
    enumeration order: on the fresh object each key is the last in
    enumeration order so far. *)
Definition prepareInputData (b : browser) (inputs : list (string * string))
  : action (list (string * parsed)) :=
  for_of inputs
    (fun kv numericInputs =>
       let numValue := parseFloat b (snd kv) in
       if isNaN numValue
       then throw ("Invalid numeric value for " +:+ field_label (fst kv) +:+ ": " +:+ snd kv)
       else ret (set_member (fst kv) numValue numericInputs))
    [].

(** *** [handleSinglePredict] *)

Definition handleSinglePredict (b : browser) (inputs : list (string * string))
    (classifier modelType : string) : action unit :=
  (valid <- validateInputs inputs;;
   when (negb valid) (return_ tt);;
   emit (SetLoading true);;
   emit (SetError None);;
   emit (SetPrediction None);;
   try_finally
     (try_catch
        (numericInputs <- prepareInputData b inputs;;
         response <- post b (API_BASE_URL +:+ "/api/predict/" +:+ classifier
                               +:+ "?model=" +:+ modelType) numericInputs;;
         let '(ok, data) := response in
         when (negb ok)
           (error <- member data "error";;
            throw (String_ b (or_else error (JStr "Prediction failed"))));;
         emit (SetPrediction (Some (Single data))))
        (fun err => emit (SetError (Some err))))
     (emit (SetLoading false)))%comp.

(** *** [handlePredictAll] *)

(** [allPredictions[classifierKey][model] = e]; the row exists, the outer
    loop has just created it. *)
Definition set_entry (classifierKey model : string) (e : entry)
    (allPredictions : gmap string (gmap string entry))
  : gmap string (gmap string entry) :=
  alter (insert model e) classifierKey allPredictions.

(** The body of the inner loop: one request, its outcome stored under
    [(classifierKey, model)]. *)
Definition predict_pair (b : browser) (numericInputs : list (string * parsed))
    (classifierKey model : string)
    (allPredictions : gmap string (gmap string entry))
  : action (gmap string (gmap string entry)) :=
  try_catch
    (response <- post b (API_BASE_URL +:+ "/api/predict/" +:+ classifierKey
                           +:+ "?model=" +:+ model) numericInputs;;
     let '(ok, data) := response in
     succeeded <- (if ok
                   then (success <- member data "success";; ret (truthy success))
                   else ret false);;
     if succeeded
     then
       (prediction <- member data "prediction";;
        probabilities <- member data "probabilities";;
        class_labels <- member data "class_labels";;
        ret (set_entry classifierKey model
               (Result prediction probabilities class_labels) allPredictions))
     else
       (error <- member data "error";;
        ret (set_entry classifierKey model
               (ErrorEntry (or_else error (JStr "Prediction failed"))) allPredictions)))%comp
    (fun err => ret (set_entry classifierKey model (ErrorEntry (JStr err)) allPredictions)).

Definition handlePredictAll (b : browser) (inputs : list (string * string))
  : action unit :=
  (valid <- validateInputs inputs;;
   when (negb valid) (return_ tt);;
   emit (SetLoading true);;
   emit (SetError None);;
   emit (SetPrediction None);;
   try_finally
     (try_catch
        (numericInputs <- prepareInputData b inputs;;
         allPredictions <-
           for_of (List.map fst CLASSIFIERS)
             (fun classifierKey allPredictions =>
                for_of MODEL_TYPES
                  (fun model allPredictions =>
                     predict_pair b numericInputs classifierKey model allPredictions)
                  (<[classifierKey := ∅]> allPredictions))
             ∅;;
         emit (SetPrediction (Some (Complete allPredictions numericInputs))))
        (fun err => emit (SetError (Some err))))
     (emit (SetLoading false)))%comp.

(** [handleSubmit]: the mode selects the handler. *)
Inductive mode := single | all.

Definition handleSubmit (b : browser) (predictionMode : mode)
    (inputs : list (string * string)) (classifier modelType : string)
  : action unit :=
  match predictionMode with
  | single => handleSinglePredict b inputs classifier modelType
  | all => handlePredictAll b inputs
  end.

(** *** What the user sees *)

Record view := View {
  prediction : option displayed;
  loading : bool;
  error : option string
}.

Definition update (v : view) (e : event) : view :=
  match e with
  | SetLoading l => {| prediction := prediction v; loading := l; error := error v |}
  | SetError x => {| prediction := prediction v; loading := loading v; error := x |}
  | SetPrediction p => {| prediction := p; loading := loading v; error := error v |}
  | Fetch _ => v
  end.

(** The view after a sequence of events. *)
Definition render (v : view) (events : list event) : view :=
  fold_left update events v.

(** The effects of running a handler from an empty log. *)
Definition trace {A} (a : action A) : list event := snd (a []).

End Prediction.

(** * Observations

    What the properties below speak about: the reply and the upstream calls
    of a route handler, the cells of a complete analysis, and the sample
    requests and environments the examples run on. *)

Module Observations.
Import JS Control Server.

(** The three relay operations of the gateway. *)
Inductive relay := Predict | PredictAll | CompareModels.

Definition handle (op : relay) : world -> request -> handler unit :=
  match op with
  | Predict => predict
  | PredictAll => predict_all
  | CompareModels => compare_models
  end.

(** The fallback message of each operation's [error.response] branch. *)
Definition fallback (op : relay) : string :=
  match op with
  | Predict => "Prediction failed"
  | PredictAll => "Batch prediction failed"
  | CompareModels => "Model comparison failed"
  end.

Definition replied {A} (h : handler A) : option reply := fst (run h).

Definition calls {A} (h : handler A) : list upstream_call := snd (run h).

(** A classifier of the whitelist: an own key of [AVAILABLE_CLASSIFIERS]. *)
Definition whitelisted (classifier : string) : Prop :=
  In classifier (List.map fst AVAILABLE_CLASSIFIERS).

(** The model parameter names one of [models]. *)
Definition names_one_of (model : query_value) (models : list string) : Prop :=
  exists s, model = QString s /\ In s models.

Definition no_input_provided : reply :=
  Reply 400 (failure (JStr "No input data provided")).

(** [check_from n i p]: [p] holds of the [n] integers from [i] upwards. *)
Fixpoint check_from (n : nat) (i : Z) (p : Z -> bool) : bool :=
  match n with
  | O => true
  | S k => if p i then check_from k (i + 1) p else false
  end.

(** Within an era: the month and the day are a calendar date, and the year
    rolls over to 400 exactly on the last 60 days (January and February of
    the year that closes the era). *)
Definition era_day_ok (doe : Z) : bool :=
  let '(y, m, d) := civil_within_era doe in
  (1 <=? m) && (m <=? 12) && (1 <=? d) && (d <=? 31)
  && (0 <=? y) && (if doe <? 146037 then y <=? 399 else y =? 400).

(** One of the characters 0 to 9. *)
Definition decimal (c : ascii) : Prop :=
  exists n, 0 <= n <= 9 /\ c = ascii_of_nat (48 + Z.to_nat n).

(** *** Sample requests and upstreams *)

Definition integer (n : Z) : json := JNum (Num n 0).

Definition sample_record : value :=
  Some (JObj [ ("age", integer 45); ("sex", integer 1); ("BMI", JNum (Num 271 (-1))) ]).

Definition empty_record : value := Some (JObj []).

(** An upstream that refuses every connection. *)
Definition refusing (c : upstream_call) : axios_result :=
  Rejected {| error_response := None;
              code := Some "ECONNREFUSED";
              message := "connect ECONNREFUSED 127.0.0.1:5000" |}.

Definition mock_prediction : json :=
  JObj [ ("prediction", integer 1);
         ("probabilities", JArr [ JArr [ JNum (Num 2 (-1)); JNum (Num 8 (-1)) ] ]);
         ("class_labels", JArr [ JStr "Negative"; JStr "Positive" ]);
         ("model", JStr "GradientBoosting") ].

(** An upstream that answers every call with the same prediction. *)
Definition predicting (c : upstream_call) : axios_result :=
  Fulfilled (Response 200 (Some mock_prediction)).

(** An upstream that answers every call with an application error. *)
Definition complaining (c : upstream_call) : axios_result :=
  Rejected {| error_response :=
                Some (Response 422 (Some (JObj [ ("error", JStr "Missing feature: weight") ])));
              code := Some "ERR_BAD_REQUEST";
              message := "Request failed with status code 422" |}.

Definition local (upstream : upstream_call -> axios_result) : world :=
  {| PYTHON_SERVICE_URL := "http://localhost:5000";
     axios := upstream;
     now := 1700000000123 |}.

End Observations.

(** The complete analysis as a table, and the inputs it is run on. *)

Module Analysis.
Import JS Control Prediction.

(** The (classifier, model) pairs in the order the loops visit them. *)
Definition pairs : list (string * string) :=
  flat_map (fun classifierKey => List.map (pair classifierKey) MODEL_TYPES)
           (List.map fst CLASSIFIERS).

(** The request the inner loop sends for one pair. *)
Definition request_for (numericInputs : list (string * parsed)) (pair : string * string)
  : fetch_request :=
  FetchRequest (API_BASE_URL +:+ "/api/predict/" +:+ fst pair +:+ "?model=" +:+ snd pair)
               "POST" numericInputs.

(** The cell a pair's outcome is stored as, branch by branch of the inner
    [try]/[catch]: a rejected [fetch] and a body that is not JSON store the
    thrown message; an ok response with a truthy [success] stores the result;
    any other object stores its [error] or "Prediction failed"; [null] makes
    the first property read throw. *)
Definition outcome_entry (outcome : fetch_result) : entry :=
  match outcome with
  | Failed msg => ErrorEntry (JStr msg)
  | Responded _ (NotJson msg) => ErrorEntry (JStr msg)
  | Responded ok (Json JNull) =>
      ErrorEntry (JStr ("Cannot read properties of null (reading '"
                        +:+ (if ok then "success" else "error") +:+ "')"))
  | Responded ok (Json (JObj fields)) =>
      if ok && truthy (assoc "success" fields)
      then Result (assoc "prediction" fields) (assoc "probabilities" fields)
                  (assoc "class_labels" fields)
      else ErrorEntry (or_else (assoc "error" fields) (JStr "Prediction failed"))
  | Responded _ (Json _) => ErrorEntry (JStr "Prediction failed")
  end.

(** The table the two loops build when the cell of each pair is given. *)
Definition fan_out (entry_of : string * string -> entry) (classifiers models : list string)
  : gmap string (gmap string entry) :=
  fold_left
    (fun allPredictions classifierKey =>
       fold_left
         (fun allPredictions model =>
            set_entry classifierKey model (entry_of (classifierKey, model)) allPredictions)
         models (<[classifierKey := ∅]> allPredictions))
    classifiers ∅.

(** [allPredictions[classifierKey][model]]. *)
Definition cell (allPredictions : gmap string (gmap string entry)) (pair : string * string)
  : option entry :=
  match allPredictions !! fst pair with
  | Some row => row !! snd pair
  | None => None
  end.

(** Every cell of the table with its keys. *)
Definition cells (allPredictions : gmap string (gmap string entry))
  : list (string * string * entry) :=
  flat_map (fun row => List.map (fun c => (fst row, fst c, snd c)) (map_to_list (snd row)))
           (map_to_list allPredictions).

Definition is_error (c : string * string * entry) : bool :=
  match snd c with
  | ErrorEntry _ => true
  | Result _ _ _ => false
  end.

Definition is_result (c : string * string * entry) : bool := negb (is_error c).

(** The gateway call of a pair throws: [fetch] rejects, or the body of the
    response is not JSON. *)
Definition throws (outcome : fetch_result) (msg : string) : Prop :=
  outcome = Failed msg \/ exists ok, outcome = Responded ok (NotJson msg).

(** The gateway call of a pair succeeds: an ok response whose body is an
    object with a truthy [success]. *)
Definition succeeds (outcome : fetch_result) : Prop :=
  exists fields,
    outcome = Responded true (Json (JObj fields)) /\
    truthy (assoc "success" fields) = true.

(** Every field holds some text. *)
Definition filled (inputs : list (string * string)) : Prop :=
  Forall (fun kv => snd kv <> "") inputs.

(** Every field parses to a number. *)
Definition numeric (b : browser) (inputs : list (string * string)) : Prop :=
  Forall (fun kv => isNaN (parseFloat b (snd kv)) = false) inputs.

(** The object [prepareInputData] returns when every field is numeric. *)
Definition numericInputs_of (b : browser) (inputs : list (string * string))
  : list (string * parsed) :=
  fold_left (fun acc kv => set_member (fst kv) (parseFloat b (snd kv)) acc) inputs [].

(** [msg] contains [label]. *)
Definition mentions (msg label : string) : Prop :=
  exists before after, msg = before +:+ label +:+ after.

(** The requests sent, in order. *)
Definition fetched (events : list event) : list fetch_request :=
  flat_map (fun e => match e with Fetch r => [r] | _ => [] end) events.

(** The results handed to [setPrediction], in order. *)
Definition published (events : list event) : list displayed :=
  flat_map (fun e => match e with SetPrediction (Some p) => [p] | _ => [] end) events.

(** Every value handed to [setPrediction], in order, [null] included. *)
Definition prediction_updates (events : list event) : list (option displayed) :=
  flat_map (fun e => match e with SetPrediction p => [p] | _ => [] end) events.

Definition blank : view := {| prediction := None; loading := false; error := None |}.

(** The table of a run: each pair's cell is decided by that pair's request. *)
Definition aggregate (b : browser) (numericInputs : list (string * parsed))
  : gmap string (gmap string entry) :=
  fan_out (fun pair => outcome_entry (fetch b (request_for numericInputs pair)))
          (List.map fst CLASSIFIERS) MODEL_TYPES.

(** The order in which [cells] lists the pairs of a complete table. *)
Definition stored_pairs : list (string * string) :=
  Eval vm_compute in
    List.map (fun c => (fst (fst c), snd (fst c)))
             (cells (fan_out (fun _ => Result None None None)
                             (List.map fst CLASSIFIERS) MODEL_TYPES)).

(** The message [validateInputs] reports. *)
Definition missing_fields (inputs : list (string * string)) : string :=
  "Please fill in all fields: "
  +:+ join ", " (List.map (fun kv => field_label (fst kv))
                          (List.filter (fun kv => String.eqb (snd kv) "") inputs)).

(** *** Sample forms and networks *)

Definition patient : list (string * string) :=
  [ ("age", "45"); ("sex", "1"); ("weight", "82.5"); ("height", "178"); ("BMI", "26.0");
    ("smoking", "0"); ("alcohol_consumption", "1"); ("physical_activity", "2");
    ("family_history", "1"); ("cholesterol_medication", "0") ].

Definition gateway_success : json :=
  JObj [ ("success", JBool true);
         ("classifier", JStr "BP_Class");
         ("prediction", JNum (Num 1 0));
         ("probabilities", JArr [ JArr [ JNum (Num 2 (-1)); JNum (Num 8 (-1)) ] ]);
         ("class_labels", JArr [ JStr "Negative"; JStr "Positive" ]);
         ("model", JStr "GradientBoosting") ].

(** A screen that shows the result of an earlier single prediction. *)
Definition showing_earlier : view :=
  {| prediction := Some (Single gateway_success); loading := false; error := None |}.

(** A network on which one request fails and every other succeeds. *)
Definition failing_at (url : string) (r : fetch_request) : fetch_result :=
  if String.eqb (fetch_url r) url
  then Failed "Failed to fetch"
  else Responded true (Json gateway_success).

(** The sample form with a word typed into the weight field. *)
Definition mistyped : list (string * string) := handleChange "weight" "heavy" patient.

Definition flaky : browser :=
  {| parseFloat := parseFloat_ascii;
     String_ := fun j => match j with JStr s => s | _ => "[object Object]" end;
     fetch := failing_at "http://localhost:3000/api/predict/Diabetes_Class?model=RandomForest" |}.

End Analysis.

(** * The rest of the gateway and of the component *)

(** ** The other endpoints of [Backend/server.js] *)

Module Endpoints.
Import JS Control Server.

(** [app.get('/health', ...)]. *)
Definition health (w : world) : handler unit :=
  send 200
    [ ("status", Some (JStr "healthy"));
      ("timestamp", Some (JStr (toISOString (now w))));
      ("service", Some (JStr "Heart Health Classification API")) ].

(** [AVAILABLE_CLASSIFIERS] as [res.json] serialises it. *)
Definition classifiers_json : json :=
  JObj (List.map (fun kv => (fst kv, JArr (List.map JStr (snd kv)))) AVAILABLE_CLASSIFIERS).

(** [app.get('/api/classifiers', ...)]. *)
Definition classifiers : handler unit :=
  send 200
    [ ("success", Some (JBool true));
      ("classifiers", Some classifiers_json);
      ("count", Some (JNum (Num (Z.of_nat (List.length (List.map fst AVAILABLE_CLASSIFIERS))) 0))) ].

(** The error-handling middleware, [app.use((err, req, res, next) => ...)]. *)
Definition error_middleware : handler unit :=
  send 500 (failure (JStr "An unexpected error occurred")).

(** The 404 handler, [app.use((req, res) => ...)]. *)
Definition not_found : handler unit :=
  send 404 (failure (JStr "Endpoint not found")).

End Endpoints.

(** ** Result display and mode buttons of [Prediction.jsx] *)

Module Display.
Import JS Control Prediction.

(** *** [getResultClass], [getResultText], [getResultIcon] *)

(** The number is 1. Numbers are compared as the decimals they denote. *)
Definition number_is_one (n : number) : bool :=
  if 0 <=? exponent n
  then mantissa n * 10 ^ exponent n =? 1
  else mantissa n =? 10 ^ (- exponent n).

(** [value === 1]. *)
Definition is_one (v : value) : bool :=
  match v with
  | Some (JNum n) => number_is_one n
  | _ => false
  end.

(** [Array.isArray(pred) ? pred[0] : pred]. *)
Definition first_or_self (pred : json) : value :=
  match pred with
  | JArr items => List.hd_error items
  | _ => Some pred
  end.

Definition getResultClass (pred : value) : string :=
  match pred with
  | None => ""
  | Some j =>
      if negb (truthy_json j) then ""
      else if is_one (first_or_self j)
           then "bg-red-50 border-red-200"
           else "bg-green-50 border-green-200"
  end.

Definition getResultText (pred : value) : string :=
  match pred with
  | None => "N/A"
  | Some j =>
      if negb (truthy_json j) then "N/A"
      else if is_one (first_or_self j) then "Positive" else "Negative"
  end.

Inductive icon := AlertCircle | CheckCircle.

Definition getResultIcon (pred : value) : option icon :=
  match pred with
  | None => None
  | Some j =>
      if negb (truthy_json j) then None
      else if is_one (first_or_self j) then Some AlertCircle else Some CheckCircle
  end.

(** One card of the complete analysis: the branch of [if (result.error)]
    that draws it, with the error, or with the class, icon and text of
    [result.prediction]. The confidence rows of a result card are left out. *)
Inductive card :=
| ErrorCard (error : json)
| ResultCard (className : string) (mark : option icon) (text : string).

Definition render_cell (result : entry) : card :=
  match result with
  | ErrorEntry error =>
      if truthy_json error then ErrorCard error
      else ResultCard (getResultClass None) (getResultIcon None) (getResultText None)
  | Result prediction _ _ =>
      ResultCard (getResultClass prediction) (getResultIcon prediction)
                 (getResultText prediction)
  end.

(** *** The mode buttons and the result panels *)

(** The state the panels are drawn from. *)
Record screen := Screen { shown : view; predictionMode : mode }.

(** The [onClick] of a mode button: [setPredictionMode(m)],
    [setPrediction(null)], [setError(null)]. *)
Definition select_mode (m : mode) (s : screen) : screen :=
  {| shown := {| prediction := None; loading := loading (shown s); error := None |};
     predictionMode := m |}.

(** The state updates of a running handler, applied as they happen. *)
Definition handled (s : screen) (events : list event) : screen :=
  {| shown := render (shown s) events; predictionMode := predictionMode s |}.

(** [prediction && prediction.success]. *)
Definition has_success (p : option displayed) : bool :=
  match p with
  | None => false
  | Some (Single data) =>
      truthy_json data &&
      match get (Some data) "success" with
      | inr success => truthy success
      | inl _ => false
      end
  | Some (Complete _ _) => true
  end.

(** [prediction.prediction], read once [prediction.success] is truthy. *)
Definition prediction_of (p : displayed) : value :=
  match p with
  | Single data =>
      match get (Some data) "prediction" with
      | inr v => v
      | inl _ => undefined
      end
  | Complete _ _ => undefined
  end.

(** Which result panel is drawn, and from what: the single panel with the
    class, icon and text of [prediction.prediction]; the complete panel with
    one card per cell of [prediction.predictions]. [Object.entries] throws
    on [undefined] and [null]. *)
Inductive panel :=
| NoPanel
| SinglePanel (className : string) (mark : option icon) (text : string)
| CompletePanel (cards : gmap string (gmap string card))
| CompletePanelOf (predictions : json)
| RenderError (e : JS.error).

Definition result_panel (s : screen) : panel :=
  match prediction (shown s) with
  | None => NoPanel
  | Some p =>
      if negb (has_success (Some p)) then NoPanel else
      match predictionMode s, p with
      | single, _ =>
          SinglePanel (getResultClass (prediction_of p)) (getResultIcon (prediction_of p))
                      (getResultText (prediction_of p))
      | all, Complete predictions _ => CompletePanel (fmap (fun models : gmap string entry => fmap render_cell models) predictions)
      | all, Single data =>
          match get (Some data) "predictions" with
          | inl e => RenderError e
          | inr None | inr (Some JNull) =>
              RenderError (TypeError "Cannot convert undefined or null to object")
          | inr (Some predictions) => CompletePanelOf predictions
          end
      end
  end.

End Display.

(** ** Further observations *)

Module RelayCalls.
Import JS Control Server Endpoints Observations.

(** The [timeout] each relay operation passes to axios. *)
Definition timeout_of (op : relay) : Z :=
  match op with
  | Predict => 10000
  | PredictAll => 15000
  | CompareModels => 15000
  end.

(** The upstream path each relay operation derives from the request. *)
Definition path_of (op : relay) (req : request) : string :=
  match op with
  | Predict =>
      if truthy_query (query_model req)
      then ("/predict/" +:+ params_classifier req)
           +:+ "?model=" +:+ query_to_string (query_model req)
      else "/predict/" +:+ params_classifier req
  | PredictAll => "/predict-all"
  | CompareModels => "/compare-models/" +:+ params_classifier req
  end.

(** The one call a relay operation can make for a request. *)
Definition upstream_call_of (op : relay) (w : world) (req : request) : upstream_call :=
  Call POST (PYTHON_SERVICE_URL w +:+ path_of op req) (body req) (timeout_of op).

(** The message of each operation's last-resort 500. *)
Definition generic_failure (op : relay) : string :=
  match op with
  | Predict => "Internal server error during prediction"
  | PredictAll => "Internal server error during batch prediction"
  | CompareModels => "Internal server error during model comparison"
  end.

(** An upstream that times out: no response, axios's timeout code. *)
Definition timing_out (c : upstream_call) : axios_result :=
  Rejected {| error_response := None;
              code := Some "ECONNABORTED";
              message := "timeout of 10000ms exceeded" |}.

(** An upstream whose error response has the JSON body [null]. *)
Definition null_error (c : upstream_call) : axios_result :=
  Rejected {| error_response := Some (Response 500 (Some JNull));
              code := Some "ERR_BAD_RESPONSE";
              message := "Request failed with status code 500" |}.

Definition mock_info : json :=
  JObj [ ("classifier", JStr "BP_Class"); ("model", JStr "RandomForest");
         ("success", JBool false); ("n_features", JNum (Num 10 0)) ].

(** An upstream that answers every call with model metadata. *)
Definition informing (c : upstream_call) : axios_result :=
  Fulfilled (Response 200 (Some mock_info)).

End RelayCalls.

Module Routing.
Import JS Control Server Prediction Analysis.

(** The request the gateway's single-predict route sees for the URL the
    form builds for a pair: Express takes [classifier] from the path and
    [model] from the query string. *)
Definition routed (pair : string * string) (inputData : value) : request :=
  Request (fst pair) (QString (snd pair)) inputData.

End Routing.

Module Scenarios.
Import JS Control Prediction Display Analysis.

(** The request single predict sends for the selected classifier and model. *)
Definition single_request (numericInputs : list (string * parsed))
    (classifier modelType : string) : fetch_request :=
  FetchRequest (API_BASE_URL +:+ "/api/predict/" +:+ classifier +:+ "?model=" +:+ modelType)
               "POST" numericInputs.

(** The state update single predict makes for the outcome of its request. *)
Definition single_outcome (b : browser) (outcome : fetch_result) : event :=
  match outcome with
  | Failed msg => SetError (Some msg)
  | Responded _ (NotJson msg) => SetError (Some msg)
  | Responded true (Json data) => SetPrediction (Some (Single data))
  | Responded false (Json data) =>
      match get (Some data) "error" with
      | inl e => SetError (Some (message e))
      | inr error => SetError (Some (String_ b (or_else error (JStr "Prediction failed"))))
      end
  end.


(** A network on which every request fails. *)
Definition offline : browser :=
  {| parseFloat := parseFloat_ascii;
     String_ := fun j => match j with JStr s => s | _ => "[object Object]" end;
     fetch := fun _ => Failed "Failed to fetch" |}.

(** A network on which every request is answered with a gateway error. *)
Definition unavailable : browser :=
  {| parseFloat := parseFloat_ascii;
     String_ := fun j => match j with JStr s => s | _ => "[object Object]" end;
     fetch := fun _ =>
       Responded false
         (Json (JObj [ ("success", JBool false);
                       ("error", JStr "Python service is not running. Please start the Flask server.") ])) |}.

(** A state update that sets no error and publishes nothing. *)
Definition quiet (e : event) : Prop :=
  match e with
  | SetError (Some _) => False
  | SetPrediction (Some _) => False
  | _ => True
  end.

(** A single-prediction answer without a [predictions] member. *)
Definition answering : browser :=
  {| parseFloat := parseFloat_ascii;
     String_ := fun j => match j with JStr s => s | _ => "[object Object]" end;
     fetch := fun _ => Responded true (Json gateway_success) |}.

(** An OK answer that carries no [success]. *)
Definition bare : browser :=
  {| parseFloat := parseFloat_ascii;
     String_ := fun j => match j with JStr s => s | _ => "[object Object]" end;
     fetch := fun _ => Responded true (Json (JObj [ ("prediction", JNum (Num 1 0)) ])) |}.

End Scenarios.

(** * Properties *)

(** ** Dates *)

Module DateFacts.
Import JS Observations.

Lemma check_from_sound n p :
  forall i, check_from n i p = true ->
  forall j, i <= j < i + Z.of_nat n -> p j = true.
Proof.
  induction n as [|k IH]; intros i Hc j Hj; [lia|].
  cbn [check_from] in Hc.
  destruct (p i) eqn:Hi; [|discriminate].
  destruct (Z.eq_dec j i) as [->|Hne]; [exact Hi|].
  apply (IH (i + 1)); [exact Hc|lia].
Qed.

Lemma era_days_ok : check_from (Z.to_nat 146097) 0 era_day_ok = true.
Proof. vm_cast_no_check (eq_refl true). Qed.

Lemma civil_within_era_range doe :
  0 <= doe < 146097 ->
  let '(y, m, d) := civil_within_era doe in
  1 <= m <= 12 /\ 1 <= d <= 31 /\ 0 <= y /\
  (doe < 146037 -> y <= 399) /\ (146037 <= doe -> y = 400).
Proof.
  intros Hdoe.
  pose proof (check_from_sound _ _ _ era_days_ok doe) as Hok.
  unfold era_day_ok in Hok.
  destruct (civil_within_era doe) as [[y m] d].
  specialize (Hok ltac:(lia)).
  destruct (Z.ltb_spec doe 146037); lia.
Qed.

(** The days a time value can fall on have a year of at most six digits. *)
Lemma civil_from_days_range day :
  -100000000 <= day <= 100000000 ->
  let '(y, m, d) := civil_from_days day in
  -999999 <= y <= 999999 /\ 1 <= m <= 12 /\ 1 <= d <= 31.
Proof.
  intros Hday. unfold civil_from_days.
  pose proof (Z.mod_pos_bound (day + 719468) 146097 ltac:(lia)) as Hdoe.
  pose proof (civil_within_era_range _ Hdoe) as Hera.
  pose proof (Z.div_mod (day + 719468) 146097 ltac:(lia)) as Hdiv.
  destruct (civil_within_era ((day + 719468) mod 146097)) as [[y m] d].
  destruct Hera as (Hm & Hd & Hy & Hlo & Hhi).
  assert (-680 <= (day + 719468) / 146097 <= 690) as Hq by lia.
  assert (y <= 400) by (destruct (Z.lt_ge_cases ((day + 719468) mod 146097) 146037); lia).
  lia.
Qed.

(** [toISOString] of a time value is an ISO 8601 date and time. *)
Lemma toISOString_ISO8601 t : time_value t -> ISO8601 (toISOString t).
Proof.
  unfold time_value. intros Ht. unfold toISOString, ISO8601, utc_fields.
  assert (-100000000 <= t / msPerDay <= 100000000) as Hday
    by (unfold msPerDay; Z.to_euclidean_division_equations; lia).
  pose proof (civil_from_days_range _ Hday) as Hciv.
  destruct (civil_from_days (t / msPerDay)) as [[y m] d].
  eexists. split; [reflexivity|]. cbn [year month day hours minutes seconds milliseconds].
  pose proof (Z.mod_pos_bound t msPerDay ltac:(reflexivity)) as Hms.
  unfold msPerDay in *.
  repeat split; try lia; Z.to_euclidean_division_equations; lia.
Qed.

Lemma digit_decimal n : decimal (digit n).
Proof.
  exists (n mod 10). split; [|reflexivity].
  pose proof (Z.mod_pos_bound n 10 ltac:(lia)). lia.
Qed.

(** With a four-digit year the text is [YYYY-MM-DDTHH:mm:ss.sssZ]: 24
    characters, a digit wherever the pattern has a letter. *)
Lemma format_ISO_shape f :
  0 <= year f <= 9999 ->
  exists Y1 Y2 Y3 Y4 M1 M2 D1 D2 h1 h2 m1 m2 s1 s2 u1 u2 u3,
    Forall decimal [Y1; Y2; Y3; Y4; M1; M2; D1; D2; h1; h2; m1; m2; s1; s2; u1; u2; u3] /\
    format_ISO f
    = string_of_list_ascii
        [ Y1; Y2; Y3; Y4; "-"; M1; M2; "-"; D1; D2; "T";
          h1; h2; ":"; m1; m2; ":"; s1; s2; "."; u1; u2; u3; "Z" ]%char.
Proof.
  intros Hy. unfold format_ISO, format_year.
  replace ((0 <=? year f) && (year f <=? 9999)) with true by (symmetry; apply andb_true_iff; lia).
  do 17 eexists. split; [|cbv [digits String.append string_of_list_ascii]; reflexivity].
  repeat (constructor; [apply digit_decimal|]). constructor.
Qed.

Example epoch : toISOString 0 = "1970-01-01T00:00:00.000Z".
Proof. reflexivity. Qed.

Example leap_day : toISOString 951782400000 = "2000-02-29T00:00:00.000Z".
Proof. reflexivity. Qed.

Example sample_instant : toISOString 1700000000123 = "2023-11-14T22:13:20.123Z".
Proof. reflexivity. Qed.

Example last_instant : toISOString 253402300799999 = "9999-12-31T23:59:59.999Z".
Proof. reflexivity. Qed.

Example first_instant : toISOString (-62167219200000) = "0000-01-01T00:00:00.000Z".
Proof. reflexivity. Qed.

Example before_year_zero : toISOString (-62167219200001) = "-000001-12-31T23:59:59.999Z".
Proof. reflexivity. Qed.

Example latest_date : toISOString 8640000000000000 = "+275760-09-13T00:00:00.000Z".
Proof. reflexivity. Qed.

Example earliest_date : toISOString (-8640000000000000) = "-271821-04-20T00:00:00.000Z".
Proof. reflexivity. Qed.

End DateFacts.

(** ** The gateway *)

Module ServerFacts.
Import JS Control Server Observations.

Ltac step_handler :=
  unfold replied, calls, run, handle, predict, predict_all, compare_models, model_info,
    pass_through, send, await, try_catch, when, lift, bind, emit, return_, throw, ret, get;
  cbn [fst snd app].

(** Case analysis along the branches of a handler: a scrutinee whose value
    is known is rewritten, any other is split. *)
Ltac branches :=
  unfold get in *;
  repeat (cbn [fst snd app] in *;
          match goal with
          | H : (_, _) = (_, _) |- _ => inversion H; subst; clear H
          | H : Some _ = Some _ |- _ => inversion H; subst; clear H
          | H : Fulfilled _ = Fulfilled _ |- _ => inversion H; subst; clear H
          | H : Rejected _ = Rejected _ |- _ => inversion H; subst; clear H
          | H : ?c :: _ = [] |- _ => discriminate H
          | H : [] = _ :: _ |- _ => discriminate H
          | H : [_] = [_] |- _ => inversion H; subst; clear H
          | H : ?x = _ |- context [match ?x with _ => _ end] => rewrite H
          | H : ?x = _, H' : context [match ?x with _ => _ end] |- _ => rewrite H in H'
          | H : ?x = _, H' : ?x = _ |- _ => rewrite H in H'
          | H : context [match ?x with _ => _ end] |- _ =>
              lazymatch x with
              | context [match _ with _ => _ end] => fail
              | _ => destruct x eqn:?
              end
          | |- context [match ?x with _ => _ end] =>
              lazymatch x with
              | context [match _ with _ => _ end] => fail
              | _ => destruct x eqn:?
              end
          end);
  try discriminate; try congruence; try reflexivity.

Lemma mem_In k l : mem k l = true <-> In k l.
Proof.
  unfold mem. rewrite existsb_exists. split.
  - intros (x & Hx & Heq). apply String.eqb_eq in Heq. now subst.
  - intros H. exists k. split; [exact H|apply String.eqb_refl].
Qed.

Lemma assoc_In {A} k (l : list (string * A)) :
  In k (List.map fst l) <-> exists a, assoc k l = Some a.
Proof.
  induction l as [|[k' a] l IH]; cbn [assoc List.map fst In].
  - split; [tauto|intros [a Ha]; discriminate].
  - destruct (String.eqb_spec k k') as [->|Hne].
    + split; [eauto|auto].
    + rewrite <- IH. split; [intros [?|?]; [congruence|assumption]|auto].
Qed.

Lemma whitelisted_models classifier :
  whitelisted classifier <->
  exists models, AVAILABLE_CLASSIFIERS_at classifier = Models models.
Proof.
  unfold whitelisted, AVAILABLE_CLASSIFIERS_at. rewrite assoc_In.
  destruct (assoc classifier AVAILABLE_CLASSIFIERS) as [models|].
  - split; eauto.
  - split; intros [x Hx]; [discriminate|].
    destruct (mem classifier Object_prototype); discriminate.
Qed.

(** The lookup is [undefined] exactly for the names that are neither own
    keys nor members of [Object.prototype]. *)
Lemma lookup_undefined classifier :
  AVAILABLE_CLASSIFIERS_at classifier = Undefined <->
  ~ whitelisted classifier /\ ~ In classifier Object_prototype.
Proof.
  unfold whitelisted, AVAILABLE_CLASSIFIERS_at. rewrite assoc_In, <- mem_In.
  destruct (assoc classifier AVAILABLE_CLASSIFIERS) as [models|].
  - split; [discriminate|]. intros [H _]. exfalso. eauto.
  - destruct (mem classifier Object_prototype).
    + split; [discriminate|]. intros [_ H]. now exfalso.
    + split; [|reflexivity]. intros _. split; [intros [a Ha]|]; discriminate.
Qed.

(** A name outside the whitelist and outside [Object.prototype] is refused
    by the three operations that take a classifier, before any upstream
    call, with the whitelist spelled out. *)
Lemma unknown_classifier_rejected w req :
  AVAILABLE_CLASSIFIERS_at (params_classifier req) = Undefined ->
  run (predict w req) = (Some (Reply 400 invalid_classifier), []) /\
  run (compare_models w req) = (Some (Reply 400 invalid_classifier), []) /\
  run (model_info w req) = (Some (Reply 400 invalid_classifier), []).
Proof.
  intros H. step_handler. rewrite H. cbn. auto.
Qed.

Example invalid_classifier_message :
  invalid_classifier =
  failure (JStr "Invalid classifier. Must be one of: BP_Class, Diabetes_Class, Dyslipidemia_Class").
Proof. reflexivity. Qed.

(** When the upstream refuses the connection, single predict and
    predict-all answer 503. *)
Lemma refused_503 op w req c e :
  op <> CompareModels ->
  calls (handle op w req) = [c] ->
  axios w c = Rejected e ->
  error_response e = None ->
  connection_refused e = true ->
  replied (handle op w req) = Some (Reply 503 service_down).
Proof.
  intros Hop Hc Hax Hresp Hcode. destruct op; [| |congruence];
    revert Hc; step_handler; intros Hc; branches.
Qed.

(** Compare-models has no such branch: a refused connection falls through
    to its generic 500. *)
Lemma compare_models_refused_500 w req c e :
  calls (compare_models w req) = [c] ->
  axios w c = Rejected e ->
  error_response e = None ->
  replied (compare_models w req)
  = Some (Reply 500 (failure (JStr "Internal server error during model comparison"))).
Proof.
  intros Hc Hax Hresp. revert Hc; step_handler; intros Hc; branches.
Qed.

(** C1 (fails for compare-models): with the upstream refusing connections,
    POST /api/compare-models/BP_Class with a patient record issues its
    upstream call and answers 500 "Internal server error during model
    comparison", where single predict and predict-all answer 503. *)
Theorem compare_models_refused_replies_500 :
  run (compare_models (local refusing) (Request "BP_Class" QAbsent sample_record))
  = (Some (Reply 500 (failure (JStr "Internal server error during model comparison"))),
     [ Call POST "http://localhost:5000/compare-models/BP_Class" sample_record 15000 ]).
Proof. reflexivity. Qed.

Example predict_refused :
  replied (predict (local refusing) (Request "BP_Class" QAbsent sample_record))
  = Some (Reply 503 service_down).
Proof. reflexivity. Qed.

Example predict_all_refused :
  replied (predict_all (local refusing) (Request "" QAbsent sample_record))
  = Some (Reply 503 service_down).
Proof. reflexivity. Qed.

(** C4 (fails for names inherited from [Object.prototype]): "constructor"
    is not in the whitelist, yet [AVAILABLE_CLASSIFIERS["constructor"]] is
    truthy, so model-info, single predict and compare-models each pass the
    classifier check and issue their upstream call. *)
Theorem inherited_name_reaches_upstream w :
  ~ whitelisted "constructor" /\
  calls (model_info w (Request "constructor" QAbsent undefined))
  = [ Call GET (PYTHON_SERVICE_URL w +:+ "/model-info/constructor") undefined 5000 ] /\
  calls (predict w (Request "constructor" QAbsent sample_record))
  = [ Call POST (PYTHON_SERVICE_URL w +:+ "/predict/constructor") sample_record 10000 ] /\
  calls (compare_models w (Request "constructor" QAbsent sample_record))
  = [ Call POST (PYTHON_SERVICE_URL w +:+ "/compare-models/constructor") sample_record 15000 ].
Proof.
  split.
  - unfold whitelisted. cbn. intros [H|[H|[H|[]]]]; discriminate H.
  - step_handler. cbn. repeat split; branches.
Qed.

(** The model check of single predict. *)
Lemma unlisted_model_rejected w req models :
  assoc (params_classifier req) AVAILABLE_CLASSIFIERS = Some models ->
  truthy_query (query_model req) = true ->
  ~ names_one_of (query_model req) models ->
  run (predict w req)
  = (Some (Reply 400 (failure (JStr ("Invalid model type. Must be one of: "
                                     +:+ join ", " models)))),
     []).
Proof.
  intros Hown Hmodel Hnot. step_handler.
  unfold AVAILABLE_CLASSIFIERS_at. rewrite Hown. cbn [truthy_property negb].
  rewrite Hmodel. cbn [includes join_models].
  assert ((match query_model req with QString s => mem s models | _ => false end) = false)
    as ->; [|reflexivity].
  destruct (query_model req) as [|s| |]; try reflexivity.
  destruct (mem s models) eqn:Hmem; [|reflexivity].
  exfalso. apply Hnot. exists s. split; [reflexivity|now apply mem_In].
Qed.

(** C5: for a whitelisted classifier, a supplied model (one the handler's
    [if (model)] sees) that is not in that classifier's list is answered 400,
    the message lists the classifier's models, and no upstream call is
    issued. *)
Theorem predict_rejects_unlisted_model w req models :
  assoc (params_classifier req) AVAILABLE_CLASSIFIERS = Some models ->
  truthy_query (query_model req) = true ->
  ~ names_one_of (query_model req) models ->
  replied (predict w req)
  = Some (Reply 400 (failure (JStr ("Invalid model type. Must be one of: "
                                    +:+ join ", " models)))) /\
  calls (predict w req) = [].
Proof.
  intros Hown Hmodel Hnot. unfold replied, calls.
  rewrite (unlisted_model_rejected w req models Hown Hmodel Hnot). split; reflexivity.
Qed.

(** An empty [model=] is not seen as supplied: the request goes upstream
    without a model. *)
Example empty_model_parameter :
  calls (predict (local predicting) (Request "BP_Class" (QString "") sample_record))
  = [ Call POST "http://localhost:5000/predict/BP_Class" sample_record 10000 ].
Proof. reflexivity. Qed.

Lemma predict_rejects_unlisted_model_witness :
  replied (predict (local predicting) (Request "BP_Class" (QString "XGBoost") sample_record))
  = Some (Reply 400 (failure (JStr ("Invalid model type. Must be one of: "
       +:+ join ", " ["GradientBoosting"; "LogisticRegression"; "RandomForest"])))) /\
  calls (predict (local predicting) (Request "BP_Class" (QString "XGBoost") sample_record))
  = [].
Proof.
  apply (predict_rejects_unlisted_model (local predicting)
           (Request "BP_Class" (QString "XGBoost") sample_record)).
  - reflexivity.
  - reflexivity.
  - intros (s & Hs & Hin). injection Hs as <-. cbn in Hin.
    destruct Hin as [H|[H|[H|[]]]]; discriminate H.
Defined.

(** An empty object, an empty array, [null] and a missing body all count as
    no input. *)
Example no_input_cases :
  no_input empty_record = true /\ no_input (Some (JArr [])) = true /\
  no_input (Some JNull) = true /\ no_input undefined = true /\
  no_input sample_record = false.
Proof. repeat split. Qed.

(** For an unknown classifier the classifier check answers first, also when
    the body is empty: the reply is not the one about missing input. *)
Lemma empty_body_unknown_classifier :
  no_input empty_record = true /\
  replied (predict (local predicting) (Request "Heart_Class" QAbsent empty_record))
  = Some (Reply 400 invalid_classifier) /\
  replied (predict (local predicting) (Request "Heart_Class" QAbsent empty_record))
  <> Some no_input_provided.
Proof. repeat split; try reflexivity. discriminate. Qed.

(** C6 (amended): with no input in the body, no relay operation issues an
    upstream call. Predict-all answers 400 "No input data provided";
    compare-models and single predict answer it when the classifier is
    whitelisted (and, for single predict, the model is not supplied or is
    one of the classifier's); a name the whitelist lookup does not find is
    answered by the classifier check, and an unlisted model by the model
    check, both 400. *)
Theorem empty_body_never_reaches_upstream w req :
  no_input (body req) = true ->
  (forall op, calls (handle op w req) = []) /\
  replied (predict_all w req) = Some no_input_provided /\
  (whitelisted (params_classifier req) ->
   replied (compare_models w req) = Some no_input_provided) /\
  (forall models,
     assoc (params_classifier req) AVAILABLE_CLASSIFIERS = Some models ->
     truthy_query (query_model req) = false \/ names_one_of (query_model req) models ->
     replied (predict w req) = Some no_input_provided) /\
  (AVAILABLE_CLASSIFIERS_at (params_classifier req) = Undefined ->
   replied (predict w req) = Some (Reply 400 invalid_classifier) /\
   replied (compare_models w req) = Some (Reply 400 invalid_classifier)) /\
  (forall models,
     assoc (params_classifier req) AVAILABLE_CLASSIFIERS = Some models ->
     truthy_query (query_model req) = true ->
     ~ names_one_of (query_model req) models ->
     replied (predict w req)
     = Some (Reply 400 (failure (JStr ("Invalid model type. Must be one of: "
                                      +:+ join ", " models))))).
Proof.
  intros Hempty. repeat split.
  - intros op. destruct op; step_handler; rewrite Hempty; branches.
  - step_handler. rewrite Hempty. reflexivity.
  - intros Hw. apply whitelisted_models in Hw as [models Hm].
    step_handler. rewrite Hm, Hempty. reflexivity.
  - intros models Hown Hmodel. step_handler.
    unfold AVAILABLE_CLASSIFIERS_at. rewrite Hown, Hempty. cbn [truthy_property negb].
    destruct Hmodel as [Hfalsy|(s & Hs & Hin)].
    + rewrite Hfalsy. reflexivity.
    + rewrite Hs. apply mem_In in Hin. cbn [includes]. rewrite Hin.
      destruct (truthy_query (QString s)); reflexivity.
  - pose proof (unknown_classifier_rejected w req H) as (Hp & _). unfold replied.
    now rewrite Hp.
  - pose proof (unknown_classifier_rejected w req H) as (_ & Hc & _). unfold replied.
    now rewrite Hc.
  - intros models Hown Hmodel Hnot. unfold replied.
    now rewrite (unlisted_model_rejected w req models Hown Hmodel Hnot).
Qed.

Lemma empty_body_never_reaches_upstream_witness :
  (forall op,
     calls (handle op (local predicting)
              (Request "BP_Class" (QString "RandomForest") empty_record)) = []) /\
  replied (predict_all (local predicting)
             (Request "BP_Class" (QString "RandomForest") empty_record))
  = Some no_input_provided.
Proof.
  pose proof (empty_body_never_reaches_upstream (local predicting)
                (Request "BP_Class" (QString "RandomForest") empty_record) eq_refl)
    as (Hcalls & Hall & _).
  split; [exact Hcalls|exact Hall].
Defined.

Example empty_body_whitelisted :
  run (predict (local predicting) (Request "BP_Class" (QString "RandomForest") empty_record))
  = (Some no_input_provided, []) /\
  run (compare_models (local predicting) (Request "Diabetes_Class" QAbsent empty_record))
  = (Some no_input_provided, []).
Proof. split; reflexivity. Qed.



Example mocked_upstream_reply :
  run (predict (local predicting)
         (Request "BP_Class" (QString "GradientBoosting") sample_record))
  = (Some (Reply 200
             [ ("success", Some (JBool true));
               ("classifier", Some (JStr "BP_Class"));
               ("prediction", Some (integer 1));
               ("probabilities",
                Some (JArr [ JArr [ JNum (Num 2 (-1)); JNum (Num 8 (-1)) ] ]));
               ("class_labels", Some (JArr [ JStr "Negative"; JStr "Positive" ]));
               ("model", Some (JStr "GradientBoosting"));
               ("input", sample_record);
               ("timestamp", Some (JStr "2023-11-14T22:13:20.123Z")) ]),
     [ Call POST "http://localhost:5000/predict/BP_Class?model=GradientBoosting"
            sample_record 10000 ]).
Proof. reflexivity. Qed.

(** C8 (fails for a null body): when a relay operation has called the
    upstream and axios rejects with a response, what the handler sends is
    decided by the response body. A body other than [null] is answered with
    the response's status and [body.error || fallback]: the upstream's error
    member when the body is an object with a truthy one, the operation's own
    failure message otherwise. With the JSON body [null], or with no body,
    reading [error.response.data.error] throws inside the [catch] block and
    the handler sends nothing, neither the status nor the fallback. *)
Theorem upstream_error_reply_by_body op w req c e r :
  calls (handle op w req) = [c] ->
  axios w c = Rejected e ->
  error_response e = Some r ->
  match data r with
  | None | Some JNull => replied (handle op w req) = None
  | Some (JObj fields) =>
      replied (handle op w req)
      = Some (Reply (status r)
                (failure (or_else (assoc "error" fields) (JStr (fallback op)))))
  | Some _ =>
      replied (handle op w req) = Some (Reply (status r) (failure (JStr (fallback op))))
  end.
Proof.
  intros Hc Hax Hresp.
  destruct (data r) as [[| | | | |fields]|] eqn:Hdata;
    destruct op; revert Hc; step_handler; intros Hc; branches.
Qed.

Lemma upstream_error_reply_by_body_witness :
  replied (handle CompareModels (local RelayCalls.null_error)
             (Request "BP_Class" QAbsent sample_record))
  = None.
Proof.
  apply (upstream_error_reply_by_body CompareModels (local RelayCalls.null_error)
           (Request "BP_Class" QAbsent sample_record)
           (Call POST "http://localhost:5000/compare-models/BP_Class" sample_record 15000)
           {| error_response := Some (Response 500 (Some JNull));
              code := Some "ERR_BAD_RESPONSE";
              message := "Request failed with status code 500" |}
           (Response 500 (Some JNull)));
    reflexivity.
Defined.

(** An upstream error with an object body is passed on: its status and its
    error member. *)
Example upstream_message_passed_on :
  replied (handle CompareModels (local complaining)
             (Request "BP_Class" QAbsent sample_record))
  = Some (Reply 422 (failure (JStr "Missing feature: weight"))).
Proof. reflexivity. Qed.

(** A body whose error member is present but falsy gets the fallback too. *)
Example empty_upstream_message :
  or_else (assoc "error" [ ("error", JStr "") ]) (JStr (fallback Predict))
  = JStr "Prediction failed".
Proof. reflexivity. Qed.

(** C10: when model-info has called the upstream and the call fails in any
    way (a response outside 2xx, a refused connection, a timeout), the reply
    is 500 "Failed to retrieve model information": neither the upstream's
    status nor its message is passed on, and there is no 503. *)
Theorem model_info_failure_is_500 w req c e :
  calls (model_info w req) = [c] ->
  axios w c = Rejected e ->
  replied (model_info w req)
  = Some (Reply 500 (failure (JStr "Failed to retrieve model information"))).
Proof.
  intros Hc Hax. revert Hc; step_handler; intros Hc; branches.
Qed.

Lemma model_info_failure_is_500_witness :
  replied (model_info (local complaining) (Request "BP_Class" QAbsent undefined))
  = Some (Reply 500 (failure (JStr "Failed to retrieve model information"))).
Proof.
  apply (model_info_failure_is_500 (local complaining)
           (Request "BP_Class" QAbsent undefined)
           (Call GET "http://localhost:5000/model-info/BP_Class" undefined 5000)
           {| error_response :=
                Some (Response 422 (Some (JObj [ ("error", JStr "Missing feature: weight") ])));
              code := Some "ERR_BAD_REQUEST";
              message := "Request failed with status code 422" |});
    reflexivity.
Defined.

Example model_info_refused :
  replied (model_info (local refusing) (Request "BP_Class" (QString "RandomForest") undefined))
  = Some (Reply 500 (failure (JStr "Failed to retrieve model information"))).
Proof. reflexivity. Qed.

End ServerFacts.

(** ** The client aggregator *)

Module PredictionFacts.
Import JS Control Prediction Analysis.

Lemma append_assoc (a b c : string) : (a +:+ b) +:+ c = a +:+ (b +:+ c).
Proof.
  induction a as [|x a IH]; [reflexivity|].
  change (String x ((a +:+ b) +:+ c) = String x (a +:+ (b +:+ c))). now rewrite IH.
Qed.

Lemma mentions_extend msg label before :
  mentions msg label -> mentions (before +:+ msg) label.
Proof.
  intros (pre & post & ->). exists (before +:+ pre), post. now rewrite append_assoc.
Qed.

(** A joined list contains each of its elements. *)
Lemma join_mentions sep (l : list string) x :
  In x l -> mentions (join sep l) x.
Proof.
  unfold join. induction l as [|y l IH]; [intros []|].
  intros [->|Hin].
  - destruct l as [|z l].
    + exists "", "". cbn [String.concat]. change ("" +:+ x +:+ "") with (x +:+ "").
      clear. induction x as [|c x IHx]; [reflexivity|].
      change (String c x = String c (x +:+ "")). now f_equal.
    + exists "", (sep +:+ String.concat sep (z :: l)). reflexivity.
  - destruct l as [|z l]; [destruct Hin|].
    change (String.concat sep (y :: z :: l)) with (y +:+ sep +:+ String.concat sep (z :: l)).
    apply mentions_extend, mentions_extend, IH, Hin.
Qed.

(** *** Validation *)

Lemma filled_no_empty_field inputs :
  filled inputs <-> List.filter (fun kv => String.eqb (snd kv) "") inputs = [].
Proof.
  unfold filled. induction inputs as [|kv inputs IH]; cbn [List.filter].
  - split; [reflexivity|constructor].
  - destruct (String.eqb_spec (snd kv) "") as [Heq|Hne].
    + split; [|discriminate]. intros H. inversion H; subst. contradiction.
    + rewrite <- IH. split; [intros H; now inversion H|now constructor].
Qed.

Lemma filled_dec inputs : {filled inputs} + {~ filled inputs}.
Proof.
  apply Forall_dec. intros kv.
  destruct (string_dec (snd kv) "") as [Heq|Hne]; [right|left]; auto.
Defined.

Lemma numeric_dec b inputs : {numeric b inputs} + {~ numeric b inputs}.
Proof.
  apply Forall_dec. intros kv.
  destruct (isNaN (parseFloat b (snd kv))); [right|left]; auto; discriminate.
Defined.

Lemma validateInputs_filled inputs log :
  filled inputs -> validateInputs inputs log = (Next true, log).
Proof.
  intros H. apply filled_no_empty_field in H. unfold validateInputs. now rewrite H.
Qed.

Lemma validateInputs_not_filled inputs log :
  ~ filled inputs ->
  validateInputs inputs log = (Next false, (log ++ [SetError (Some (missing_fields inputs))])%list).
Proof.
  intros H. rewrite filled_no_empty_field in H. unfold validateInputs, missing_fields.
  destruct (List.filter _ inputs) as [|kv rest]; [now exfalso|]. reflexivity.
Qed.

(** The message names every empty field. *)
Lemma missing_fields_mentions inputs key :
  In (key, "") inputs -> mentions (missing_fields inputs) (field_label key).
Proof.
  intros Hin. unfold missing_fields. apply mentions_extend, join_mentions.
  apply (in_map (fun kv => field_label (fst kv)) _ (key, "")).
  apply filter_In. split; [exact Hin|reflexivity].
Qed.


(** [prepareInputData] returns the parsed object when every field is
    numeric, and otherwise throws at the first field that is not. *)
Lemma prepareInputData_numeric b inputs log :
  numeric b inputs ->
  prepareInputData b inputs log = (Next (numericInputs_of b inputs), log).
Proof.
  unfold prepareInputData, numericInputs_of. generalize (@nil (string * parsed)).
  induction inputs as [|kv inputs IH]; intros acc Hnum; [reflexivity|].
  inversion Hnum as [|? ? Hkv Hrest]; subst.
  cbn [for_of fold_left]. unfold bind at 1. rewrite Hkv. cbn. now apply IH.
Qed.

Lemma prepareInputData_not_numeric b inputs log :
  ~ numeric b inputs ->
  exists key value,
    In (key, value) inputs /\ isNaN (parseFloat b value) = true /\
    prepareInputData b inputs log
    = (Thrown ("Invalid numeric value for " +:+ field_label key +:+ ": " +:+ value), log).
Proof.
  unfold prepareInputData. generalize (@nil (string * parsed)).
  induction inputs as [|[key value] inputs IH]; intros acc Hnot.
  - exfalso. apply Hnot. constructor.
  - destruct (isNaN (parseFloat b value)) eqn:Hnan.
    + exists key, value. split; [now left|]. split; [exact Hnan|].
      cbn [for_of]. unfold bind at 1. cbn [fst snd]. now rewrite Hnan.
    + destruct (IH (set_member key (parseFloat b value) acc)) as (k & v & Hin & Hv & Hrun).
      * intros Hrest. apply Hnot. constructor; [exact Hnan|exact Hrest].
      * exists k, v. split; [now right|]. split; [exact Hv|].
        cbn [for_of]. unfold bind at 1. cbn [fst snd]. rewrite Hnan. exact Hrun.
Qed.


(** *** The fan-out *)

(** One turn of the inner loop sends one request, never throws, and stores
    the cell its own outcome decides. *)
Lemma predict_pair_run b numericInputs classifierKey model allPredictions log :
  predict_pair b numericInputs classifierKey model allPredictions log
  = (Next (set_entry classifierKey model
             (outcome_entry (fetch b (request_for numericInputs (classifierKey, model))))
             allPredictions),
     (log ++ [Fetch (request_for numericInputs (classifierKey, model))])%list).
Proof.
  unfold predict_pair, post, member, try_catch, bind, emit, throw, ret, request_for,
    outcome_entry.
  cbn [fst snd].
  destruct (fetch b _) as [ok [data|msg]|msg]; try reflexivity.
  destruct data, ok; cbn; try reflexivity;
    match goal with |- context [truthy ?v] => destruct (truthy v) end; reflexivity.
Qed.

Lemma inner_loop_run b numericInputs classifierKey models :
  forall allPredictions log,
    for_of models
      (fun model allPredictions =>
         predict_pair b numericInputs classifierKey model allPredictions)
      allPredictions log
    = (Next (fold_left
               (fun allPredictions model =>
                  set_entry classifierKey model
                    (outcome_entry (fetch b (request_for numericInputs (classifierKey, model))))
                    allPredictions)
               models allPredictions),
       (log ++ List.map (fun model => Fetch (request_for numericInputs (classifierKey, model)))
                        models)%list).
Proof.
  induction models as [|model models IH]; intros allPredictions log.
  - cbn. now rewrite app_nil_r.
  - cbn [for_of fold_left List.map]. unfold bind. rewrite predict_pair_run, IH.
    now rewrite <- app_assoc.
Qed.

Lemma outer_loop_run b numericInputs models classifiers :
  forall allPredictions log,
    for_of classifiers
      (fun classifierKey allPredictions =>
         for_of models
           (fun model allPredictions =>
              predict_pair b numericInputs classifierKey model allPredictions)
           (<[classifierKey := ∅]> allPredictions))
      allPredictions log
    = (Next (fold_left
               (fun allPredictions classifierKey =>
                  fold_left
                    (fun allPredictions model =>
                       set_entry classifierKey model
                         (outcome_entry
                            (fetch b (request_for numericInputs (classifierKey, model))))
                         allPredictions)
                    models (<[classifierKey := ∅]> allPredictions))
               classifiers allPredictions),
       (log ++ List.map (fun pair => Fetch (request_for numericInputs pair))
                        (flat_map (fun classifierKey => List.map (pair classifierKey) models)
                                  classifiers))%list).
Proof.
  induction classifiers as [|classifierKey classifiers IH]; intros allPredictions log.
  - cbn. now rewrite app_nil_r.
  - cbn [for_of fold_left flat_map]. unfold bind. rewrite inner_loop_run, IH.
    rewrite List.map_app, List.map_map, <- app_assoc. reflexivity.
Qed.

(** *** The three ways [handlePredictAll] runs *)

Lemma handlePredictAll_not_filled b inputs :
  ~ filled inputs ->
  trace (handlePredictAll b inputs) = [ SetError (Some (missing_fields inputs)) ].
Proof.
  intros H. unfold trace, handlePredictAll, bind.
  rewrite (validateInputs_not_filled _ _ H). reflexivity.
Qed.

Lemma handlePredictAll_not_numeric b inputs :
  filled inputs -> ~ numeric b inputs ->
  exists key value,
    In (key, value) inputs /\ isNaN (parseFloat b value) = true /\
    trace (handlePredictAll b inputs)
    = [ SetLoading true; SetError None; SetPrediction None;
        SetError (Some ("Invalid numeric value for " +:+ field_label key +:+ ": " +:+ value));
        SetLoading false ].
Proof.
  intros Hf Hn.
  destruct (prepareInputData_not_numeric b inputs
              [SetLoading true; SetError None; SetPrediction None] Hn)
    as (key & value & Hin & Hnan & Hrun).
  exists key, value. split; [exact Hin|]. split; [exact Hnan|].
  unfold trace, handlePredictAll, bind, try_finally, try_catch.
  rewrite (validateInputs_filled _ _ Hf). cbn [negb when ret emit app].
  rewrite Hrun. reflexivity.
Qed.

Lemma handlePredictAll_valid b inputs :
  filled inputs -> numeric b inputs ->
  trace (handlePredictAll b inputs)
  = ([ SetLoading true; SetError None; SetPrediction None ]
     ++ List.map (fun pair => Fetch (request_for (numericInputs_of b inputs) pair)) pairs
     ++ [ SetPrediction (Some (Complete (aggregate b (numericInputs_of b inputs))
                                        (numericInputs_of b inputs)));
          SetLoading false ])%list.
Proof.
  intros Hf Hn.
  unfold trace, handlePredictAll, bind, try_finally, try_catch.
  rewrite (validateInputs_filled _ _ Hf). cbn [negb when ret emit app].
  rewrite (prepareInputData_numeric _ _ _ Hn).
  rewrite outer_loop_run. cbn [emit snd]. unfold aggregate, fan_out, pairs.
  rewrite <- !app_assoc. reflexivity.
Qed.


Lemma handleSinglePredict_not_filled b inputs classifier modelType :
  ~ filled inputs ->
  trace (handleSinglePredict b inputs classifier modelType)
  = [ SetError (Some (missing_fields inputs)) ].
Proof.
  intros H. unfold trace, handleSinglePredict, bind.
  rewrite (validateInputs_not_filled _ _ H). reflexivity.
Qed.

Lemma handleSinglePredict_not_numeric b inputs classifier modelType :
  filled inputs -> ~ numeric b inputs ->
  exists key value,
    In (key, value) inputs /\ isNaN (parseFloat b value) = true /\
    trace (handleSinglePredict b inputs classifier modelType)
    = [ SetLoading true; SetError None; SetPrediction None;
        SetError (Some ("Invalid numeric value for " +:+ field_label key +:+ ": " +:+ value));
        SetLoading false ].
Proof.
  intros Hf Hn.
  destruct (prepareInputData_not_numeric b inputs
              [SetLoading true; SetError None; SetPrediction None] Hn)
    as (key & value & Hin & Hnan & Hrun).
  exists key, value. split; [exact Hin|]. split; [exact Hnan|].
  unfold trace, handleSinglePredict, bind, try_finally, try_catch.
  rewrite (validateInputs_filled _ _ Hf). cbn [negb when ret emit app].
  rewrite Hrun. reflexivity.
Qed.

(** *** The table *)

Lemma cell_fan_out entry_of pair :
  In pair pairs ->
  cell (fan_out entry_of (List.map fst CLASSIFIERS) MODEL_TYPES) pair = Some (entry_of pair).
Proof.
  intros H. cbn in H.
  repeat (destruct H as [<-|H]; [vm_compute; reflexivity|]). destruct H.
Qed.

Lemma cells_fan_out entry_of :
  cells (fan_out entry_of (List.map fst CLASSIFIERS) MODEL_TYPES)
  = List.map (fun pair => (fst pair, snd pair, entry_of pair)) stored_pairs.
Proof. vm_compute. reflexivity. Qed.

Lemma stored_pairs_pairs pair : In pair stored_pairs <-> In pair pairs.
Proof. cbn. tauto. Qed.

Lemma stored_pairs_NoDup : List.NoDup stored_pairs.
Proof.
  unfold stored_pairs.
  repeat (constructor; [cbn; intros H; repeat (destruct H as [H|H]; [discriminate H|]); exact H|]).
  constructor.
Qed.

(** In a list without repetition, a property that holds of [x] and of no
    other element selects exactly [x]. *)
Lemma filter_only {A} (P : A -> bool) (l : list A) x :
  List.NoDup l -> In x l -> P x = true ->
  (forall y, In y l -> y <> x -> P y = false) ->
  List.filter P l = [x].
Proof.
  induction l as [|a l IH]; intros Hnd Hin Hx Hothers; [destruct Hin|].
  inversion Hnd as [|? ? Hnotin Hnd']; subst. cbn [List.filter].
  destruct Hin as [->|Hin].
  - rewrite Hx. f_equal.
    assert (forall y, In y l -> P y = false) as Hall.
    { intros y Hy. apply Hothers; [now right|]. intros ->. contradiction. }
    clear -Hall. induction l as [|c l IHl]; [reflexivity|].
    cbn [List.filter]. rewrite (Hall c) by now left.
    apply IHl. intros y Hy. apply Hall. now right.
  - assert (a <> x) as Hne by (intros ->; contradiction).
    rewrite (Hothers a (or_introl eq_refl) Hne).
    apply IH; auto. intros y Hy. apply Hothers. now right.
Qed.

Lemma filter_all_but {A} (P : A -> bool) (l : list A) x :
  List.NoDup l -> In x l -> P x = false ->
  (forall y, In y l -> y <> x -> P y = true) ->
  S (List.length (List.filter P l)) = List.length l.
Proof.
  induction l as [|a l IH]; intros Hnd Hin Hx Hothers; [destruct Hin|].
  inversion Hnd as [|? ? Hnotin Hnd']; subst. cbn [List.filter List.length].
  destruct Hin as [->|Hin].
  - rewrite Hx. f_equal.
    assert (forall y, In y l -> P y = true) as Hall.
    { intros y Hy. apply Hothers; [now right|]. intros ->. contradiction. }
    clear -Hall. induction l as [|c l IHl]; [reflexivity|].
    cbn [List.filter List.length]. rewrite (Hall c) by now left.
    cbn [List.length]. f_equal. apply IHl. intros y Hy. apply Hall. now right.
  - assert (a <> x) as Hne by (intros ->; contradiction).
    rewrite (Hothers a (or_introl eq_refl) Hne).
    cbn [List.length]. f_equal. apply IH; auto. intros y Hy. apply Hothers. now right.
Qed.

Lemma filter_map_comm {A B} (f : A -> B) (P : B -> bool) (l : list A) :
  List.filter P (List.map f l) = List.map f (List.filter (fun a => P (f a)) l).
Proof.
  induction l as [|a l IH]; [reflexivity|].
  cbn [List.map List.filter]. destruct (P (f a)); cbn [List.map]; now rewrite IH.
Qed.

Lemma outcome_entry_throws outcome msg :
  throws outcome msg -> outcome_entry outcome = ErrorEntry (JStr msg).
Proof. intros [->|[ok ->]]; reflexivity. Qed.

Lemma outcome_entry_succeeds outcome :
  succeeds outcome ->
  exists fields,
    outcome = Responded true (Json (JObj fields)) /\
    outcome_entry outcome
    = Result (assoc "prediction" fields) (assoc "probabilities" fields)
             (assoc "class_labels" fields).
Proof.
  intros (fields & -> & Ht). exists fields. split; [reflexivity|].
  unfold outcome_entry. now rewrite Ht.
Qed.

(** *** What is shown *)

Lemma render_app v l1 l2 : render v (l1 ++ l2) = render (render v l1) l2.
Proof. apply fold_left_app. Qed.

Lemma render_fetches v (requests : list fetch_request) :
  render v (List.map Fetch requests) = v.
Proof. induction requests as [|r requests IH]; [reflexivity|exact IH]. Qed.

Lemma fetched_app l1 l2 : fetched (l1 ++ l2) = (fetched l1 ++ fetched l2)%list.
Proof. apply flat_map_app. Qed.

Lemma published_app l1 l2 : published (l1 ++ l2) = (published l1 ++ published l2)%list.
Proof. apply flat_map_app. Qed.

Lemma fetched_fetches (requests : list fetch_request) :
  fetched (List.map Fetch requests) = requests.
Proof. induction requests as [|r requests IH]; [reflexivity|]. cbn. now f_equal. Qed.

Lemma published_fetches (requests : list fetch_request) :
  published (List.map Fetch requests) = [].
Proof. induction requests as [|r requests IH]; [reflexivity|exact IH]. Qed.

(** While nothing has been published, the prediction on screen is the one
    from before the run, or none. *)
Lemma render_unpublished events :
  published events = [] ->
  forall v, prediction (render v events) = prediction v \/ prediction (render v events) = None.
Proof.
  induction events as [|e events IH]; intros Hp v; [now left|].
  change (render v (e :: events)) with (render (update v e) events).
  destruct e as [l|x|[p|]|r].
  - destruct (IH Hp (update v (SetLoading l))) as [H|H]; [left|right]; exact H.
  - destruct (IH Hp (update v (SetError x))) as [H|H]; [left|right]; exact H.
  - discriminate Hp.
  - right. destruct (IH Hp (update v (SetPrediction None))) as [H|H]; exact H.
  - destruct (IH Hp (update v (Fetch r))) as [H|H]; [left|right]; exact H.
Qed.

Lemma published_prefix shown rest :
  published (shown ++ rest) = [] -> published shown = [].
Proof. rewrite published_app. now intros [H _]%app_eq_nil. Qed.


(** Each cell of a run's table is decided by the outcome of its own pair's
    request, whatever happens to the others. *)
Lemma cells_are_independent b numericInputs pair :
  In pair pairs ->
  cell (aggregate b numericInputs) pair
  = Some (outcome_entry (fetch b (request_for numericInputs pair))).
Proof. intros H. unfold aggregate. now rewrite cell_fan_out. Qed.

Lemma handlePredictAll_shows b inputs v :
  filled inputs -> numeric b inputs ->
  prediction (render v (trace (handlePredictAll b inputs)))
  = Some (Complete (aggregate b (numericInputs_of b inputs)) (numericInputs_of b inputs)).
Proof.
  intros Hf Hn. rewrite (handlePredictAll_valid _ _ Hf Hn).
  rewrite <- (List.map_map (request_for (numericInputs_of b inputs)) Fetch).
  now rewrite !render_app, render_fetches.
Qed.

(** C2: on a valid form the table shown at the end has a cell for each of
    the 9 pairs, and each cell is decided by the outcome of its own pair's
    request alone. So when the request of exactly one pair throws and every
    other pair's request succeeds, the one error cell is the failed pair's,
    carrying the thrown message, and the other 8 are results. *)
Theorem one_failure_is_isolated b inputs v :
  filled inputs -> numeric b inputs ->
  exists allPredictions,
    prediction (render v (trace (handlePredictAll b inputs)))
    = Some (Complete allPredictions (numericInputs_of b inputs)) /\
    (forall pair, In pair pairs ->
       cell allPredictions pair
       = Some (outcome_entry (fetch b (request_for (numericInputs_of b inputs) pair)))) /\
    List.length (cells allPredictions) = 9%nat /\
    (forall failed msg,
       In failed pairs ->
       throws (fetch b (request_for (numericInputs_of b inputs) failed)) msg ->
       (forall pair, In pair pairs -> pair <> failed ->
          succeeds (fetch b (request_for (numericInputs_of b inputs) pair))) ->
       List.filter is_error (cells allPredictions)
       = [ (fst failed, snd failed, ErrorEntry (JStr msg)) ] /\
       List.length (List.filter is_result (cells allPredictions)) = 8%nat).
Proof.
  intros Hf Hn.
  exists (aggregate b (numericInputs_of b inputs)).
  split; [now apply handlePredictAll_shows|].
  split; [intros pair Hp; now apply cells_are_independent|].
  unfold aggregate. rewrite cells_fan_out.
  split; [reflexivity|].
  intros failed msg Hin Hthrows Hothers.
  assert (outcome_entry (fetch b (request_for (numericInputs_of b inputs) failed))
          = ErrorEntry (JStr msg)) as Hfailed
    by (now apply outcome_entry_throws).
  assert (forall pair, In pair stored_pairs -> pair <> failed ->
            exists x y z,
              outcome_entry (fetch b (request_for (numericInputs_of b inputs) pair))
              = Result x y z) as Hresults.
  { intros pair Hp Hne. apply stored_pairs_pairs in Hp.
    destruct (outcome_entry_succeeds _ (Hothers pair Hp Hne)) as (fields & _ & He).
    rewrite He. eauto. }
  apply stored_pairs_pairs in Hin.
  split.
  - rewrite filter_map_comm.
    rewrite (filter_only _ stored_pairs failed stored_pairs_NoDup Hin).
    + cbn [List.map]. cbv beta. now rewrite Hfailed.
    + unfold is_error. cbn [snd]. now rewrite Hfailed.
    + intros pair Hp Hne. destruct (Hresults pair Hp Hne) as (x & y & z & He).
      unfold is_error. cbn [snd]. now rewrite He.
  - rewrite filter_map_comm, length_map.
    apply Nat.succ_inj.
    rewrite (filter_all_but _ stored_pairs failed stored_pairs_NoDup Hin).
    + reflexivity.
    + unfold is_result, is_error. cbn [snd]. now rewrite Hfailed.
    + intros pair Hp Hne. destruct (Hresults pair Hp Hne) as (x & y & z & He).
      unfold is_result, is_error. cbn [snd]. now rewrite He.
Qed.

Lemma patient_filled : filled patient.
Proof. unfold filled, patient. repeat (constructor; [discriminate|]). constructor. Qed.

Lemma patient_numeric : numeric flaky patient.
Proof. unfold numeric, patient. repeat (constructor; [reflexivity|]). constructor. Qed.

Lemma one_failure_is_isolated_witness :
  exists allPredictions,
    prediction (render blank (trace (handlePredictAll flaky patient)))
    = Some (Complete allPredictions (numericInputs_of flaky patient)) /\
    List.length (cells allPredictions) = 9%nat /\
    List.filter is_error (cells allPredictions)
    = [ ("Diabetes_Class", "RandomForest", ErrorEntry (JStr "Failed to fetch")) ] /\
    List.length (List.filter is_result (cells allPredictions)) = 8%nat.
Proof.
  destruct (one_failure_is_isolated flaky patient blank patient_filled patient_numeric)
    as (allPredictions & Hshown & _ & Hnine & Hone).
  destruct (Hone ("Diabetes_Class", "RandomForest") "Failed to fetch")
    as (Herror & Hresults).
  - cbn. tauto.
  - left. reflexivity.
  - intros pair Hin Hne. cbn in Hin.
    repeat (destruct Hin as [<-|Hin];
            [first [ exfalso; apply Hne; reflexivity
                   | eexists; split; [vm_compute; reflexivity|reflexivity] ]|]).
    destruct Hin.
  - exists allPredictions. auto.
Defined.

(** A run that fails validation publishes nothing and fetches nothing. *)
Lemma nothing_published_when_invalid b inputs :
  ~ (filled inputs /\ numeric b inputs) ->
  published (trace (handlePredictAll b inputs)) = [] /\
  fetched (trace (handlePredictAll b inputs)) = [].
Proof.
  intros Hnot. destruct (filled_dec inputs) as [Hf|Hf].
  - destruct (numeric_dec b inputs) as [Hn|Hn]; [exfalso; auto|].
    destruct (handlePredictAll_not_numeric b inputs Hf Hn) as (key & value & _ & _ & ->).
    split; reflexivity.
  - rewrite (handlePredictAll_not_filled b inputs Hf). split; reflexivity.
Qed.

Lemma prediction_updates_app l1 l2 :
  prediction_updates (l1 ++ l2) = (prediction_updates l1 ++ prediction_updates l2)%list.
Proof. apply flat_map_app. Qed.

Lemma prediction_updates_fetches (requests : list fetch_request) :
  prediction_updates (List.map Fetch requests) = [].
Proof. induction requests; [reflexivity|assumption]. Qed.

(** C3 (as stated, fails): a run updates the prediction state twice, not
    once, and its first update, [setPrediction(null)], comes before any
    request is sent: a result on screen from an earlier run is cleared while
    every pair is still pending. *)
Lemma earlier_result_is_cleared_first :
  List.length (prediction_updates (trace (handlePredictAll flaky patient))) = 2%nat /\
  fetched (firstn 3 (trace (handlePredictAll flaky patient))) = [] /\
  prediction showing_earlier = Some (Single gateway_success) /\
  prediction (render showing_earlier (firstn 3 (trace (handlePredictAll flaky patient))))
  = None.
Proof.
  rewrite (handlePredictAll_valid _ _ patient_filled patient_numeric).
  rewrite !prediction_updates_app.
  rewrite <- (List.map_map (request_for (numericInputs_of flaky patient)) Fetch).
  rewrite prediction_updates_fetches. repeat split.
Qed.

(** C3 (amended): on a valid form the run updates the prediction state
    exactly twice. It first clears it, before any request is sent; it then
    hands [setPrediction] a result exactly once, the complete table with a
    cell for every pair, after all 9 requests have been sent and answered.
    From the first request until that publication the prediction state is
    null, so no partial table is ever on screen. *)
Theorem publication_is_atomic b inputs :
  filled inputs -> numeric b inputs ->
  exists before after,
    trace (handlePredictAll b inputs)
    = (before
       ++ SetPrediction (Some (Complete (aggregate b (numericInputs_of b inputs))
                                        (numericInputs_of b inputs)))
       :: after)%list /\
    prediction_updates (trace (handlePredictAll b inputs))
    = [ None;
        Some (Complete (aggregate b (numericInputs_of b inputs))
                       (numericInputs_of b inputs)) ] /\
    published (trace (handlePredictAll b inputs))
    = [ Complete (aggregate b (numericInputs_of b inputs)) (numericInputs_of b inputs) ] /\
    (forall pair, In pair pairs ->
       exists e, cell (aggregate b (numericInputs_of b inputs)) pair = Some e) /\
    fetched before = List.map (request_for (numericInputs_of b inputs)) pairs /\
    published before = [] /\
    (forall shown rest v,
       before = (shown ++ rest)%list ->
       prediction (render v shown) = prediction v \/ prediction (render v shown) = None) /\
    (forall shown rest v,
       before = (shown ++ rest)%list ->
       fetched shown <> [] ->
       prediction (render v shown) = None) /\
    fetched after = [] /\
    published after = [] /\
    prediction_updates after = [].
Proof.
  intros Hf Hn.
  exists ([ SetLoading true; SetError None; SetPrediction None ]
          ++ List.map Fetch (List.map (request_for (numericInputs_of b inputs)) pairs))%list,
         [ SetLoading false ].
  assert (published
            ([ SetLoading true; SetError None; SetPrediction None ]
             ++ List.map Fetch (List.map (request_for (numericInputs_of b inputs)) pairs))
          = []) as Hbefore
    by (rewrite published_app, published_fetches; reflexivity).
  rewrite (handlePredictAll_valid _ _ Hf Hn).
  rewrite <- (List.map_map (request_for (numericInputs_of b inputs)) Fetch).
  split; [reflexivity|].
  split; [rewrite !prediction_updates_app, prediction_updates_fetches; reflexivity|].
  split; [rewrite !published_app, published_fetches; reflexivity|].
  split; [intros pair Hp; rewrite (cells_are_independent _ _ _ Hp); eauto|].
  split; [rewrite fetched_app, fetched_fetches; reflexivity|].
  split; [exact Hbefore|].
  split; [|split; [|repeat split]].
  - intros shown rest v Hsplit. apply render_unpublished.
    rewrite Hsplit in Hbefore. now apply published_prefix in Hbefore.
  - intros shown rest v Hsplit Hsent.
    destruct (app_eq_app _ _ _ _ Hsplit) as (l & [[Hcleared Hrest]|[Hshown Hpending]]).
    + exfalso. apply Hsent.
      assert (fetched (shown ++ l) = []) as Hnone by (rewrite <- Hcleared; reflexivity).
      rewrite fetched_app in Hnone. now apply app_eq_nil in Hnone.
    + apply map_eq_app in Hpending as (sent & pending & _ & <- & _).
      rewrite Hshown, render_app, render_fetches. reflexivity.
Qed.

Lemma publication_is_atomic_witness :
  prediction_updates (trace (handlePredictAll flaky patient))
  = [ None;
      Some (Complete (aggregate flaky (numericInputs_of flaky patient))
                     (numericInputs_of flaky patient)) ].
Proof.
  destruct (publication_is_atomic flaky patient patient_filled patient_numeric)
    as (before & after & _ & Htwice & _).
  exact Htwice.
Defined.



Example mistyped_form :
  trace (handleSubmit flaky all mistyped "BP_Class" "GradientBoosting")
  = [ SetLoading true; SetError None; SetPrediction None;
      SetError (Some "Invalid numeric value for Weight (kg): heavy");
      SetLoading false ].
Proof. reflexivity. Qed.

Example untouched_form :
  trace (handleSubmit flaky single initial_inputs "BP_Class" "GradientBoosting")
  = [ SetError (Some ("Please fill in all fields: Age, Sex, Weight (kg), Height (cm), BMI, "
                      +:+ "Smoking Status, Alcohol Consumption, Physical Activity Level, "
                      +:+ "Family History, Cholesterol Medication")) ].
Proof. reflexivity. Qed.

(** [parseFloat] reads a numeric prefix: text that merely starts with a
    number passes validation. *)
Example parseFloat_prefix :
  parseFloat_ascii "12abc" = Finite (Num 12 0) /\
  parseFloat_ascii " 7.50" = Finite (Num 75 (-1)) /\
  parseFloat_ascii "1e3" = Finite (Num 1 3) /\
  parseFloat_ascii "abc" = NaN /\ parseFloat_ascii "." = NaN /\ parseFloat_ascii " " = NaN.
Proof. repeat split. Qed.

(** [parseFloat] rounds to a double: to the nearest one, ties to even, to
    [Infinity] on overflow and to zero on underflow. *)
Example parseFloat_rounds :
  parseFloat_ascii "0.1"
  = Finite (Num 1000000000000000055511151231257827021181583404541015625 (-55)) /\
  parseFloat_ascii "9007199254740993" = Finite (Num 9007199254740992 0) /\
  parseFloat_ascii "9007199254740995" = Finite (Num 9007199254740996 0) /\
  parseFloat_ascii "1e400" = Infinity false /\
  parseFloat_ascii "-1.7976931348623159e308" = Infinity true /\
  parseFloat_ascii "1e-400" = Finite (Num 0 0).
Proof. vm_compute. repeat split. Qed.

(** The form keeps its ten fields when one of them is edited. *)
Lemma handleChange_keeps_fields name value inputs :
  In name (List.map fst inputs) ->
  List.map fst (handleChange name value inputs) = List.map fst inputs.
Proof.
  intros Hin. unfold handleChange, assign.
  assert (exists x, assoc name inputs = Some x) as (x & ->).
  { induction inputs as [|[k x] inputs IH]; [destruct Hin|].
    cbn [assoc]. destruct (String.eqb_spec name k) as [->|Hne]; [eauto|].
    apply IH. destruct Hin as [Heq|Hin]; [cbn in Heq; congruence|exact Hin]. }
  clear x. induction inputs as [|[k x] inputs IH]; [destruct Hin|].
  cbn [set_member List.map fst].
  destruct (String.eqb_spec name k) as [->|Hne]; [reflexivity|].
  cbn [List.map fst] in *. f_equal. apply IH. destruct Hin as [Heq|Hin]; [congruence|exact Hin].
Qed.

Example ten_fields : List.length initial_inputs = 10%nat.
Proof. reflexivity. Qed.

End PredictionFacts.

(** ** More of the gateway *)

Module GatewayFacts.
Import JS Control Server Endpoints Observations RelayCalls ServerFacts.

(** A relay operation makes no upstream call or the one call its request
    determines. *)
Lemma calls_cases op w req :
  calls (handle op w req) = [] \/ calls (handle op w req) = [upstream_call_of op w req].
Proof.
  unfold upstream_call_of.
  destruct op; step_handler; unfold path_of; cbn [timeout_of]; branches;
    cbn [fst snd]; rewrite ?PredictionFacts.append_assoc; auto.
Qed.

(** X1: no handler issues more than one upstream call for a request: a
    failure is answered at once, never retried. *)
Theorem never_retries w req :
  (forall op, (List.length (calls (handle op w req)) <= 1)%nat) /\
  (List.length (calls (model_info w req)) <= 1)%nat.
Proof.
  split.
  - intros op. destruct (calls_cases op w req) as [-> | ->]; cbn; lia.
  - step_handler; branches; cbn; lia.
Qed.

(** X2: whatever a relay operation sends upstream is a POST of the request
    body as received, to the configured base followed by the operation's
    path, with the operation's timeout. *)
Theorem forwards_body_unchanged op w req c :
  In c (calls (handle op w req)) ->
  method c = POST /\
  payload c = body req /\
  timeout c = timeout_of op /\
  url c = PYTHON_SERVICE_URL w +:+ path_of op req.
Proof.
  intros Hin. destruct (calls_cases op w req) as [H | H]; rewrite H in Hin.
  - destruct Hin.
  - destruct Hin as [<-|[]]. repeat split.
Qed.

Lemma forwards_body_unchanged_witness :
  method (upstream_call_of Predict (local predicting)
            (Request "BP_Class" (QString "RandomForest") sample_record)) = POST /\
  payload (upstream_call_of Predict (local predicting)
             (Request "BP_Class" (QString "RandomForest") sample_record)) = sample_record /\
  timeout (upstream_call_of Predict (local predicting)
             (Request "BP_Class" (QString "RandomForest") sample_record)) = 10000 /\
  url (upstream_call_of Predict (local predicting)
         (Request "BP_Class" (QString "RandomForest") sample_record))
  = "http://localhost:5000/predict/BP_Class?model=RandomForest".
Proof.
  apply (forwards_body_unchanged Predict (local predicting)
           (Request "BP_Class" (QString "RandomForest") sample_record)).
  cbn. left. reflexivity.
Defined.

(** With a whitelisted classifier, an acceptable model and input, single
    predict makes the one call of its request. *)
Lemma predict_calls_upstream w req models :
  assoc (params_classifier req) AVAILABLE_CLASSIFIERS = Some models ->
  truthy_query (query_model req) = false \/ names_one_of (query_model req) models ->
  no_input (body req) = false ->
  calls (predict w req) = [upstream_call_of Predict w req].
Proof.
  intros Hown Hmodel Hbody. unfold upstream_call_of, path_of. step_handler.
  unfold AVAILABLE_CLASSIFIERS_at. rewrite Hown, Hbody. cbn [truthy_property negb].
  destruct Hmodel as [Hfalsy|(s & Hs & Hin)].
  - rewrite Hfalsy. cbn. branches.
  - rewrite Hs in *. apply mem_In in Hin. cbn [includes]. rewrite Hin.
    destruct (truthy_query (QString s)); cbn; rewrite ?PredictionFacts.append_assoc; branches.
Qed.

(** X3: for a whitelisted classifier, single predict contacts the upstream
    exactly when the model is not supplied or is one of the classifier's and
    the body has input; it then makes the one call of its request. *)
Theorem predict_contacts_upstream_iff w req models :
  assoc (params_classifier req) AVAILABLE_CLASSIFIERS = Some models ->
  (calls (predict w req) = [upstream_call_of Predict w req] <->
   (truthy_query (query_model req) = false \/ names_one_of (query_model req) models) /\
   no_input (body req) = false) /\
  (calls (predict w req) = [] <->
   ~ ((truthy_query (query_model req) = false \/ names_one_of (query_model req) models) /\
      no_input (body req) = false)).
Proof.
  intros Hown.
  assert ((truthy_query (query_model req) = false \/ names_one_of (query_model req) models) /\
          no_input (body req) = false ->
          calls (predict w req) = [upstream_call_of Predict w req]) as Hyes.
  { intros [Hmodel Hbody]. now apply (predict_calls_upstream w req models). }
  assert (~ ((truthy_query (query_model req) = false \/
              names_one_of (query_model req) models) /\
             no_input (body req) = false) ->
          calls (predict w req) = []) as Hno.
  { intros Hnot.
    destruct (truthy_query (query_model req)) eqn:Hmodel.
    - destruct (query_model req) as [|s| |] eqn:Hq; try discriminate Hmodel.
      + destruct (mem s models) eqn:Hmem.
        * assert (no_input (body req) = true) as Hbody.
          { destruct (no_input (body req)); [reflexivity|]. exfalso. apply Hnot.
            split; [right; exists s; split; [reflexivity|now apply mem_In]|reflexivity]. }
          step_handler. unfold AVAILABLE_CLASSIFIERS_at.
          rewrite Hown, Hq, Hmodel, Hbody. cbn. rewrite Hmem. reflexivity.
        * step_handler. unfold AVAILABLE_CLASSIFIERS_at.
          rewrite Hown, Hq, Hmodel. cbn. rewrite Hmem. reflexivity.
      + step_handler. unfold AVAILABLE_CLASSIFIERS_at. rewrite Hown, Hq. reflexivity.
      + step_handler. unfold AVAILABLE_CLASSIFIERS_at. rewrite Hown, Hq. reflexivity.
    - assert (no_input (body req) = true) as Hbody.
      { destruct (no_input (body req)); [reflexivity|]. exfalso. apply Hnot. auto. }
      step_handler. unfold AVAILABLE_CLASSIFIERS_at. rewrite Hown, Hmodel, Hbody. reflexivity. }
  assert ({(truthy_query (query_model req) = false \/
            names_one_of (query_model req) models) /\ no_input (body req) = false}
          + {~ ((truthy_query (query_model req) = false \/
                 names_one_of (query_model req) models) /\ no_input (body req) = false)})
    as Hdec.
  { destruct (no_input (body req)); [right; intros [_ H]; discriminate H|].
    destruct (truthy_query (query_model req)) eqn:Hm; [|left; auto].
    destruct (query_model req) as [|s| |]; try (right; intros [[H|(s' & H & _)] _]; discriminate H).
    destruct (mem s models) eqn:Hmem.
    - left. split; [right; exists s; split; [reflexivity|now apply mem_In]|reflexivity].
    - right. intros [[H|(s' & H & Hin)] _]; [discriminate H|].
      injection H as <-. apply mem_In in Hin. congruence. }
  split; split.
  - intros Hc. destruct Hdec as [Hy|Hn]; [exact Hy|]. rewrite (Hno Hn) in Hc. discriminate Hc.
  - exact Hyes.
  - intros Hc Hy. rewrite (Hyes Hy) in Hc. discriminate Hc.
  - exact Hno.
Qed.

Lemma predict_contacts_upstream_iff_witness :
  calls (predict (local predicting) (Request "BP_Class" (QString "RandomForest") sample_record))
  = [ upstream_call_of Predict (local predicting)
        (Request "BP_Class" (QString "RandomForest") sample_record) ].
Proof.
  apply (predict_contacts_upstream_iff (local predicting)
           (Request "BP_Class" (QString "RandomForest") sample_record)
           ["GradientBoosting"; "LogisticRegression"; "RandomForest"] eq_refl).
  split; [|reflexivity]. right. exists "RandomForest". split; [reflexivity|]. cbn. tauto.
Defined.

(** X4: when single predict or predict-all has called the upstream and the
    connection is refused, the reply is 503 with a fixed message that tells
    the operator to start the Python service; nothing of the error itself is
    passed on. *)
Theorem refused_connection_is_503 op w req c e :
  op = Predict \/ op = PredictAll ->
  calls (handle op w req) = [c] ->
  axios w c = Rejected e ->
  error_response e = None ->
  code e = Some "ECONNREFUSED" ->
  replied (handle op w req)
  = Some (Reply 503
            (failure (JStr "Python service is not running. Please start the Flask server."))).
Proof.
  intros Hop Hc Hax Hresp Hcode.
  apply (refused_503 op w req c e); try assumption.
  - destruct Hop as [-> | ->]; discriminate.
  - unfold connection_refused. now rewrite Hcode.
Qed.

Lemma refused_connection_is_503_witness :
  replied (handle PredictAll (local refusing) (Request "" QAbsent sample_record))
  = Some (Reply 503
            (failure (JStr "Python service is not running. Please start the Flask server."))).
Proof.
  apply (refused_connection_is_503 PredictAll (local refusing)
           (Request "" QAbsent sample_record)
           (Call POST "http://localhost:5000/predict-all" sample_record 15000)
           {| error_response := None;
              code := Some "ECONNREFUSED";
              message := "connect ECONNREFUSED 127.0.0.1:5000" |});
    auto.
Defined.

(** X5: a classifier name that is neither a key of the whitelist nor a
    member of [Object.prototype] is answered 400 with the whitelist spelled
    out, by single predict, compare-models and model-info alike, whatever
    the model and the body, and nothing is sent upstream. *)
Theorem foreign_classifier_rejected w req :
  ~ whitelisted (params_classifier req) ->
  ~ In (params_classifier req) Object_prototype ->
  run (predict w req) = (Some (Reply 400 invalid_classifier), []) /\
  run (compare_models w req) = (Some (Reply 400 invalid_classifier), []) /\
  run (model_info w req) = (Some (Reply 400 invalid_classifier), []).
Proof.
  intros Hw Hp. apply unknown_classifier_rejected. apply lookup_undefined. now split.
Qed.

Lemma foreign_classifier_rejected_witness :
  run (model_info (local predicting) (Request "Heart_Class" (QString "RandomForest") undefined))
  = (Some (Reply 400 invalid_classifier), []).
Proof.
  apply (foreign_classifier_rejected (local predicting)
           (Request "Heart_Class" (QString "RandomForest") undefined)).
  - unfold whitelisted. cbn. intros [H|[H|[H|[]]]]; discriminate H.
  - cbn. intros H. repeat (destruct H as [H|H]; [discriminate H|]). exact H.
Defined.

(** X6: a failure with no upstream response that is not a refused
    connection (a timeout, a DNS error, an exception of the handler's own)
    is answered 500 with the operation's fixed message: nothing of the error
    reaches the caller. *)
Theorem other_failure_is_generic_500 op w req c e :
  calls (handle op w req) = [c] ->
  axios w c = Rejected e ->
  error_response e = None ->
  connection_refused e = false ->
  replied (handle op w req) = Some (Reply 500 (failure (JStr (generic_failure op)))).
Proof.
  intros Hc Hax Hresp Hcode.
  destruct op; revert Hc; step_handler; intros Hc; branches.
Qed.

Lemma other_failure_is_generic_500_witness :
  replied (handle Predict (local timing_out) (Request "BP_Class" QAbsent sample_record))
  = Some (Reply 500 (failure (JStr "Internal server error during prediction"))).
Proof.
  apply (other_failure_is_generic_500 Predict (local timing_out)
           (Request "BP_Class" QAbsent sample_record)
           (Call POST "http://localhost:5000/predict/BP_Class" sample_record 10000)
           {| error_response := None;
              code := Some "ECONNABORTED";
              message := "timeout of 10000ms exceeded" |});
    reflexivity.
Defined.

(** X7: when predict-all has called the upstream and the call is fulfilled
    with a JSON object, the reply is 200 with exactly the members success,
    predictions (the upstream's, unchanged), input (the request body) and
    timestamp. *)
Theorem batch_success_envelope w req c r fields :
  calls (predict_all w req) = [c] ->
  axios w c = Fulfilled r ->
  data r = Some (JObj fields) ->
  replied (predict_all w req)
  = Some (Reply 200
            [ ("success", Some (JBool true));
              ("predictions", assoc "predictions" fields);
              ("input", body req);
              ("timestamp", Some (JStr (toISOString (now w)))) ]).
Proof.
  intros Hc Hax Hdata. revert Hc. step_handler. intros Hc. branches.
Qed.

Lemma batch_success_envelope_witness :
  replied (predict_all (local predicting) (Request "" QAbsent sample_record))
  = Some (Reply 200
            [ ("success", Some (JBool true));
              ("predictions", None);
              ("input", sample_record);
              ("timestamp", Some (JStr (toISOString 1700000000123))) ]).
Proof.
  apply (batch_success_envelope (local predicting) (Request "" QAbsent sample_record)
           (Call POST "http://localhost:5000/predict-all" sample_record 15000)
           (Response 200 (Some mock_prediction))
           [ ("prediction", integer 1);
             ("probabilities", JArr [ JArr [ JNum (Num 2 (-1)); JNum (Num 8 (-1)) ] ]);
             ("class_labels", JArr [ JStr "Negative"; JStr "Positive" ]);
             ("model", JStr "GradientBoosting") ]);
    reflexivity.
Defined.

(** X8: when compare-models has called the upstream and the call is
    fulfilled with a JSON object, the reply is 200 with exactly the members
    success, classifier (the path segment), models (the upstream's,
    unchanged), input (the request body) and timestamp. *)
Theorem comparison_success_envelope w req c r fields :
  calls (compare_models w req) = [c] ->
  axios w c = Fulfilled r ->
  data r = Some (JObj fields) ->
  replied (compare_models w req)
  = Some (Reply 200
            [ ("success", Some (JBool true));
              ("classifier", Some (JStr (params_classifier req)));
              ("models", assoc "models" fields);
              ("input", body req);
              ("timestamp", Some (JStr (toISOString (now w)))) ]).
Proof.
  intros Hc Hax Hdata. revert Hc. step_handler. intros Hc. branches.
Qed.

Lemma comparison_success_envelope_witness :
  replied (compare_models (local predicting) (Request "Diabetes_Class" QAbsent sample_record))
  = Some (Reply 200
            [ ("success", Some (JBool true));
              ("classifier", Some (JStr "Diabetes_Class"));
              ("models", None);
              ("input", sample_record);
              ("timestamp", Some (JStr (toISOString 1700000000123))) ]).
Proof.
  apply (comparison_success_envelope (local predicting)
           (Request "Diabetes_Class" QAbsent sample_record)
           (Call POST "http://localhost:5000/compare-models/Diabetes_Class" sample_record 15000)
           (Response 200 (Some mock_prediction))
           [ ("prediction", integer 1);
             ("probabilities", JArr [ JArr [ JNum (Num 2 (-1)); JNum (Num 8 (-1)) ] ]);
             ("class_labels", JArr [ JStr "Negative"; JStr "Positive" ]);
             ("model", JStr "GradientBoosting") ]);
    reflexivity.
Defined.

(** *** Object spread *)

Lemma assoc_set_member_same {A} k (v : A) o : assoc k (set_member k v o) = Some v.
Proof.
  induction o as [|[k' v'] o IH]; cbn [set_member assoc].
  - now rewrite String.eqb_refl.
  - destruct (String.eqb_spec k k') as [->|Hne]; cbn [assoc].
    + now rewrite String.eqb_refl.
    + destruct (String.eqb_spec k k'); [contradiction|exact IH].
Qed.

Lemma assoc_set_member_other {A} k k' (v : A) o :
  k' <> k -> assoc k' (set_member k v o) = assoc k' o.
Proof.
  intros Hne. induction o as [|[k0 v0] o IH]; cbn [set_member assoc].
  - destruct (String.eqb_spec k' k); [contradiction|reflexivity].
  - destruct (String.eqb_spec k k0) as [->|Hk]; cbn [assoc].
    + destruct (String.eqb_spec k' k0); [contradiction|reflexivity].
    + destruct (String.eqb_spec k' k0); [reflexivity|exact IH].
Qed.

Lemma keys_set_member {A} k (v : A) o k' :
  In k' (List.map fst (set_member k v o)) <-> k' = k \/ In k' (List.map fst o).
Proof.
  induction o as [|[k0 v0] o IH]; cbn [set_member List.map fst In].
  - intuition.
  - destruct (String.eqb_spec k k0) as [->|Hk]; cbn [List.map fst In].
    + intuition.
    + rewrite IH. intuition.
Qed.

Lemma assoc_insert_index_same {A} i k (v : A) o :
  assoc k o = None -> assoc k (insert_index i k v o) = Some v.
Proof.
  induction o as [|[k' v'] o IH]; cbn [insert_index assoc]; intros Hk.
  - now rewrite String.eqb_refl.
  - destruct (String.eqb_spec k k') as [->|Hne]; [discriminate Hk|].
    destruct (array_index k') as [j|]; [destruct (j <? i)%N|]; cbn [assoc];
      rewrite ?String.eqb_refl; try reflexivity.
    destruct (String.eqb_spec k k'); [contradiction|now apply IH].
Qed.

Lemma assoc_insert_index_other {A} i k k' (v : A) o :
  k' <> k -> assoc k' (insert_index i k v o) = assoc k' o.
Proof.
  intros Hne. induction o as [|[k0 v0] o IH]; cbn [insert_index assoc].
  - destruct (String.eqb_spec k' k); [contradiction|reflexivity].
  - destruct (array_index k0) as [j|]; [destruct (j <? i)%N|]; cbn [assoc].
    + destruct (String.eqb_spec k' k0); [reflexivity|exact IH].
    + destruct (String.eqb_spec k' k); [contradiction|reflexivity].
    + destruct (String.eqb_spec k' k); [contradiction|reflexivity].
Qed.

Lemma keys_insert_index {A} i k (v : A) o k' :
  In k' (List.map fst (insert_index i k v o)) <-> k' = k \/ In k' (List.map fst o).
Proof.
  induction o as [|[k0 v0] o IH]; cbn [insert_index List.map fst In].
  - intuition.
  - destruct (array_index k0) as [j|]; [destruct (j <? i)%N|]; cbn [List.map fst In].
    + rewrite IH. intuition.
    + intuition.
    + intuition.
Qed.

Lemma assoc_assign_same {A} k (v : A) o : assoc k (assign k v o) = Some v.
Proof.
  unfold assign. destruct (assoc k o) eqn:Hk; [apply assoc_set_member_same|].
  destruct (array_index k); [now apply assoc_insert_index_same|apply assoc_set_member_same].
Qed.

Lemma assoc_assign_other {A} k k' (v : A) o :
  k' <> k -> assoc k' (assign k v o) = assoc k' o.
Proof.
  intros Hne. unfold assign.
  destruct (assoc k o); [now apply assoc_set_member_other|].
  destruct (array_index k);
    [now apply assoc_insert_index_other|now apply assoc_set_member_other].
Qed.

Lemma keys_assign {A} k (v : A) o k' :
  In k' (List.map fst (assign k v o)) <-> k' = k \/ In k' (List.map fst o).
Proof.
  unfold assign. destruct (assoc k o); [apply keys_set_member|].
  destruct (array_index k); [apply keys_insert_index|apply keys_set_member].
Qed.

(** Copying members over an object: a copied name takes the copied value,
    any other keeps its own. *)
Lemma assoc_spread_members (l : list (string * value)) :
  forall o k,
    List.NoDup (List.map fst l) ->
    assoc k (fold_left (fun acc kv => assign (fst kv) (snd kv) acc) l o)
    = match assoc k l with
      | Some x => Some x
      | None => assoc k o
      end.
Proof.
  induction l as [|[k1 x1] l IH]; intros o k Hnd; [reflexivity|].
  inversion Hnd as [|? ? Hnotin Hnd']; subst.
  cbn [fold_left fst snd assoc]. rewrite (IH _ _ Hnd').
  destruct (String.eqb_spec k k1) as [->|Hne].
  - assert (assoc k1 l = None) as ->.
    { destruct (assoc k1 l) eqn:Ha; [|reflexivity].
      exfalso. apply Hnotin, assoc_In. eauto. }
    apply assoc_assign_same.
  - destruct (assoc k l); [reflexivity|]. now apply assoc_assign_other.
Qed.

Lemma keys_spread_members (l : list (string * value)) :
  forall o k,
    In k (List.map fst (fold_left (fun acc kv => assign (fst kv) (snd kv) acc) l o))
    <-> In k (List.map fst o) \/ In k (List.map fst l).
Proof.
  induction l as [|[k1 x1] l IH]; intros o k; cbn [fold_left fst snd List.map In].
  - intuition.
  - rewrite IH, keys_assign. intuition.
Qed.

Lemma assoc_own_members k fields :
  assoc k (own_members (Some (JObj fields))) = option_map Some (assoc k fields).
Proof.
  cbn [own_members]. induction fields as [|[k' a] l IH]; [reflexivity|].
  cbn [List.map assoc fst snd]. destruct (String.eqb k k'); [reflexivity|exact IH].
Qed.

Lemma keys_own_members fields :
  List.map fst (own_members (Some (JObj fields))) = List.map fst fields.
Proof. cbn [own_members]. rewrite List.map_map. reflexivity. Qed.

(** X9: when model-info has called the upstream and the call is fulfilled
    with a JSON object, the reply is 200 and carries every member of the
    upstream object with its value, and no other member than those and
    success; success is true unless the upstream object has a success
    member of its own, which then replaces it. *)
Theorem model_info_spreads_upstream w req c r fields :
  calls (model_info w req) = [c] ->
  axios w c = Fulfilled r ->
  data r = Some (JObj fields) ->
  List.NoDup (List.map fst fields) ->
  exists members,
    replied (model_info w req) = Some (Reply 200 members) /\
    (forall k x, assoc k fields = Some x -> assoc k members = Some (Some x)) /\
    (assoc "success" fields = None -> assoc "success" members = Some (Some (JBool true))) /\
    (forall k, In k (List.map fst members) <-> k = "success" \/ In k (List.map fst fields)).
Proof.
  intros Hc Hax Hdata Hnd.
  exists (spread [ ("success", Some (JBool true)) ] (data r)).
  split; [revert Hc; step_handler; intros Hc; branches|].
  rewrite Hdata. unfold spread.
  assert (List.NoDup (List.map fst (own_members (Some (JObj fields))))) as Hnd'
    by (rewrite keys_own_members; exact Hnd).
  split; [|split].
  - intros k x Hk. rewrite (assoc_spread_members _ _ _ Hnd'), assoc_own_members, Hk.
    reflexivity.
  - intros Hk. rewrite (assoc_spread_members _ _ _ Hnd'), assoc_own_members, Hk.
    reflexivity.
  - intros k. rewrite keys_spread_members, keys_own_members. cbn [List.map fst In]. intuition.
Qed.

Lemma model_info_spreads_upstream_witness :
  exists members,
    replied (model_info (local informing) (Request "BP_Class" (QString "RandomForest") undefined))
    = Some (Reply 200 members) /\
    assoc "success" members = Some (Some (JBool false)) /\
    assoc "n_features" members = Some (Some (JNum (Num 10 0))).
Proof.
  destruct (model_info_spreads_upstream (local informing)
              (Request "BP_Class" (QString "RandomForest") undefined)
              (Call GET "http://localhost:5000/model-info/BP_Class?model=RandomForest"
                    undefined 5000)
              (Response 200 (Some mock_info))
              [ ("classifier", JStr "BP_Class"); ("model", JStr "RandomForest");
                ("success", JBool false); ("n_features", JNum (Num 10 0)) ]
              eq_refl eq_refl eq_refl)
    as (members & Hreply & Hcopied & _).
  - repeat (constructor; [cbn; intros H; repeat (destruct H as [H|H]; [discriminate H|]); exact H|]).
    constructor.
  - exists members. split; [exact Hreply|]. split; apply Hcopied; reflexivity.
Defined.

Lemma or_else_truthy a b : truthy_json b = true -> truthy_json (or_else a b) = true.
Proof.
  intros Hb. unfold or_else. destruct a as [j|]; [|exact Hb].
  destruct (truthy_json j) eqn:Hj; [exact Hj|exact Hb].
Qed.

(** X10: every reply of a relay operation, of the 404 handler and of the
    error middleware is one of two envelopes: status 200 with success true
    and no error member, or success false with an error member that is
    truthy (so a caller's [data.error || ...] never falls back on a gateway
    failure). *)
Theorem reply_is_success_or_failure op w req r :
  replied (handle op w req) = Some r \/
  replied not_found = Some r \/ replied error_middleware = Some r ->
  (reply_status r = 200 /\
   assoc "success" (reply_json r) = Some (Some (JBool true)) /\
   assoc "error" (reply_json r) = None) \/
  (exists msg, reply_json r = failure msg /\ truthy_json msg = true).
Proof.
  intros [Hr|[Hr|Hr]];
    [|injection Hr as <-; right; eexists; split; reflexivity ..].
  destruct op; revert Hr; step_handler; intros Hr; branches;
    first [ left; repeat split; reflexivity
          | right; eexists; split; [reflexivity|];
            first [ reflexivity | apply or_else_truthy; reflexivity ] ].
Qed.

Lemma reply_is_success_or_failure_witness :
  (reply_status (Reply 422 (failure (JStr "Missing feature: weight"))) = 200 /\
   assoc "success" (reply_json (Reply 422 (failure (JStr "Missing feature: weight"))))
   = Some (Some (JBool true)) /\
   assoc "error" (reply_json (Reply 422 (failure (JStr "Missing feature: weight")))) = None) \/
  (exists msg,
     reply_json (Reply 422 (failure (JStr "Missing feature: weight"))) = failure msg /\
     truthy_json msg = true).
Proof.
  apply (reply_is_success_or_failure CompareModels (local complaining)
           (Request "BP_Class" QAbsent sample_record)).
  left. reflexivity.
Defined.

(** What [.includes] and [.join] throw is a [TypeError]: it carries no
    response and no code. *)
Lemma includes_throws_TypeError p model e :
  includes p model = inl e -> error_response e = None /\ code e = None.
Proof. destruct p; intros H; inversion H; subst; split; reflexivity. Qed.

Lemma join_models_throws_TypeError p e :
  join_models p = inl e -> error_response e = None /\ code e = None.
Proof. destruct p; intros H; inversion H; subst; split; reflexivity. Qed.

Ltac own_exceptions :=
  repeat match goal with
         | H : includes _ _ = inl _ |- _ => apply includes_throws_TypeError in H as [? ?]
         | H : join_models _ = inl _ |- _ => apply join_models_throws_TypeError in H as [? ?]
         end.

(** X11: a relay handler leaves a request unanswered (its exception escapes
    the [catch] block) exactly when the upstream answered with an error
    status and a body that is [null] or missing, so that reading
    [error.response.data.error] throws. Model-info answers every request. *)
Theorem unanswered_iff_null_error_body op w req :
  (replied (handle op w req) = None <->
   exists c e r,
     calls (handle op w req) = [c] /\ axios w c = Rejected e /\
     error_response e = Some r /\ (data r = None \/ data r = Some JNull)) /\
  replied (model_info w req) <> None.
Proof.
  split; [split|].
  - intros Hr. destruct op; revert Hr; step_handler; intros Hr; branches;
      own_exceptions; try congruence;
      do 3 eexists; repeat split; eauto.
  - intros (c & e & r & Hc & Hax & Hresp & Hdata).
    destruct op; revert Hc; step_handler; intros Hc; branches;
      destruct Hdata as [Hd|Hd]; congruence.
  - step_handler; branches.
Qed.

Lemma unanswered_iff_null_error_body_witness :
  replied (handle Predict (local null_error) (Request "BP_Class" QAbsent sample_record)) = None.
Proof.
  apply (unanswered_iff_null_error_body Predict (local null_error)
           (Request "BP_Class" QAbsent sample_record)).
  exists (Call POST "http://localhost:5000/predict/BP_Class" sample_record 10000),
         {| error_response := Some (Response 500 (Some JNull));
            code := Some "ERR_BAD_RESPONSE";
            message := "Request failed with status code 500" |},
         (Response 500 (Some JNull)).
  repeat split; auto.
Defined.

(** X12: on a name inherited from [Object.prototype], single predict with a
    model supplied throws at [.includes] and answers its generic 500,
    without any upstream call. *)
Theorem inherited_name_with_model_is_500 w name model inputData :
  In name Object_prototype ->
  truthy_query model = true ->
  run (predict w (Request name model inputData))
  = (Some (Reply 500 (failure (JStr "Internal server error during prediction"))), []).
Proof.
  intros Hin Hmodel.
  assert (AVAILABLE_CLASSIFIERS_at name = Inherited) as Hat.
  { cbn in Hin. repeat (destruct Hin as [<-|Hin]; [reflexivity|]). destruct Hin. }
  step_handler. cbn [params_classifier query_model body]. rewrite Hat, Hmodel. reflexivity.
Qed.

Lemma inherited_name_with_model_is_500_witness :
  run (predict (local predicting) (Request "toString" (QString "RandomForest") sample_record))
  = (Some (Reply 500 (failure (JStr "Internal server error during prediction"))), []).
Proof.
  apply (inherited_name_with_model_is_500 (local predicting) "toString"
           (QString "RandomForest") sample_record).
  - cbn. tauto.
  - reflexivity.
Defined.

(** X13: /api/classifiers answers 200 with the whitelist and its size, and
    every classifier and model it lists passes the checks of single predict,
    compare-models and model-info: with input in the body each of them makes
    its upstream call. *)
Theorem advertised_classifiers_are_accepted :
  exists table,
    run classifiers
    = (Some (Reply 200 [ ("success", Some (JBool true));
                         ("classifiers", Some (JObj table));
                         ("count", Some (JNum (Num (Z.of_nat (List.length table)) 0))) ]),
       []) /\
    forall classifier models model w inputData,
      In (classifier, JArr models) table ->
      In (JStr model) models ->
      no_input inputData = false ->
      calls (predict w (Request classifier (QString model) inputData))
      = [ upstream_call_of Predict w (Request classifier (QString model) inputData) ] /\
      calls (compare_models w (Request classifier (QString model) inputData))
      = [ upstream_call_of CompareModels w (Request classifier (QString model) inputData) ] /\
      calls (model_info w (Request classifier (QString model) inputData))
      = [ Call GET ((PYTHON_SERVICE_URL w +:+ "/model-info/" +:+ classifier)
                    +:+ "?model=" +:+ model) undefined 5000 ].
Proof.
  exists (List.map (fun kv => (fst kv, JArr (List.map JStr (snd kv)))) AVAILABLE_CLASSIFIERS).
  split; [reflexivity|].
  intros classifier models model w inputData Hc Hm Hbody.
  cbn in Hc.
  repeat (destruct Hc as [Hc|Hc];
          [ injection Hc as <- <-; cbn in Hm;
            repeat (destruct Hm as [Hm|Hm];
                    [ injection Hm as <-; unfold upstream_call_of, path_of;
                      step_handler; cbn; rewrite ?Hbody; cbn;
                      repeat split; branches;
                      cbn [fst snd]; rewrite ?PredictionFacts.append_assoc; reflexivity | ]);
            destruct Hm | ]).
  destruct Hc.
Qed.

(** X14: every timestamp member the gateway puts in a reply (health, single
    predict, predict-all, compare-models) is the ISO 8601 text of the time
    the reply is built. *)
Theorem timestamps_are_ISO8601 w r v :
  time_value (now w) ->
  replied (health w) = Some r \/ (exists op req, replied (handle op w req) = Some r) ->
  assoc "timestamp" (reply_json r) = Some v ->
  v = Some (JStr (toISOString (now w))) /\ ISO8601 (toISOString (now w)).
Proof.
  intros Hnow Hr Hv. split; [|now apply DateFacts.toISOString_ISO8601].
  destruct Hr as [Hr|(op & req & Hr)].
  - injection Hr as <-. cbn in Hv. congruence.
  - destruct op; revert Hr; step_handler; intros Hr; branches;
      cbn in Hv; congruence.
Qed.

Lemma timestamps_are_ISO8601_witness :
  Some (JStr "2023-11-14T22:13:20.123Z") = Some (JStr (toISOString 1700000000123)) /\
  ISO8601 (toISOString 1700000000123).
Proof.
  apply (timestamps_are_ISO8601 (local predicting)
           (Reply 200
              [ ("status", Some (JStr "healthy"));
                ("timestamp", Some (JStr "2023-11-14T22:13:20.123Z"));
                ("service", Some (JStr "Heart Health Classification API")) ])
           (Some (JStr "2023-11-14T22:13:20.123Z"))).
  - unfold time_value. cbn. lia.
  - left. reflexivity.
  - reflexivity.
Defined.

End GatewayFacts.

(** ** The form and the gateway together *)

Module RoutingFacts.
Import JS Control Server Prediction Observations RelayCalls Analysis Routing
       ServerFacts GatewayFacts.

(** X15: the two tables agree: every (classifier, model) pair the form can
    select or loop over passes the gateway's whitelist, so with input in the
    body its request is never answered "Invalid classifier" or "Invalid
    model type" but reaches the upstream, at the path of that classifier
    with that model. *)
Theorem form_requests_pass_the_whitelist w pair inputData :
  In pair pairs ->
  no_input inputData = false ->
  calls (predict w (routed pair inputData))
  = [ Call POST (PYTHON_SERVICE_URL w +:+ "/predict/" +:+ fst pair +:+ "?model=" +:+ snd pair)
           inputData 10000 ].
Proof.
  intros Hin Hbody.
  assert (exists models,
             assoc (fst pair) AVAILABLE_CLASSIFIERS = Some models /\
             In (snd pair) models /\ snd pair <> "") as (models & Hown & Hmodel & Hne).
  { cbv [pairs CLASSIFIERS MODEL_TYPES flat_map List.map fst app] in Hin.
    repeat (destruct Hin as [<-|Hin];
            [eexists; split; [reflexivity|]; split; [cbn; tauto|discriminate]|]).
    destruct Hin. }
  rewrite (predict_calls_upstream w (routed pair inputData) models Hown).
  - unfold upstream_call_of, path_of, routed. cbn [query_model params_classifier body
      truthy_query query_to_string timeout_of].
    destruct (String.eqb_spec (snd pair) ""); [contradiction|].
    cbn [negb]. now rewrite !PredictionFacts.append_assoc.
  - right. exists (snd pair). split; [reflexivity|exact Hmodel].
  - exact Hbody.
Qed.

Lemma form_requests_pass_the_whitelist_witness :
  calls (predict (local refusing) (routed ("Dyslipidemia_Class", "LogisticRegression") sample_record))
  = [ Call POST "http://localhost:5000/predict/Dyslipidemia_Class?model=LogisticRegression"
           sample_record 10000 ].
Proof.
  apply (form_requests_pass_the_whitelist (local refusing)
           ("Dyslipidemia_Class", "LogisticRegression") sample_record).
  - cbn. tauto.
  - reflexivity.
Defined.

End RoutingFacts.

(** ** More of the component *)

Module ComponentFacts.
Import JS Control Prediction Display Analysis Scenarios PredictionFacts.

(** *** Editing the form *)

Lemma set_member_new {A} k (v : A) o :
  ~ In k (List.map fst o) -> set_member k v o = (o ++ [(k, v)])%list.
Proof.
  induction o as [|[k' v'] o IH]; intros Hnot; [reflexivity|].
  cbn [set_member app]. cbn [List.map fst In] in Hnot.
  destruct (String.eqb_spec k k') as [->|Hne]; [exfalso; auto|].
  f_equal. apply IH. auto.
Qed.

(** A new array index lands after the smaller indices of the object and
    before everything else. *)
Lemma insert_index_place {A} i k (v : A) o :
  exists before after,
    o = (before ++ after)%list /\
    insert_index i k v o = (before ++ (k, v) :: after)%list /\
    Forall (fun kv => exists j, array_index (fst kv) = Some j /\ (j < i)%N) before /\
    match after with
    | [] => True
    | kv :: _ => forall j, array_index (fst kv) = Some j -> ~ (j < i)%N
    end.
Proof.
  induction o as [|[k' v'] o (before & after & Ho & Hput & Hbefore & Hafter)].
  - exists [], []. repeat split. constructor.
  - cbn [insert_index]. destruct (array_index k') as [j|] eqn:Hk'.
    + destruct (N.ltb_spec j i) as [Hlt|Hge].
      * exists ((k', v') :: before), after. rewrite Ho at 1. rewrite Hput.
        repeat split; [|exact Hafter]. constructor; [|exact Hbefore]. cbn. eauto.
      * exists [], ((k', v') :: o). repeat split; [constructor|].
        cbn [fst]. intros j' Hj'. rewrite Hk' in Hj'. injection Hj' as <-. lia.
    + exists [], ((k', v') :: o). repeat split; [constructor|].
      cbn [fst]. intros j' Hj'. rewrite Hk' in Hj'. discriminate Hj'.
Qed.

(** X16: editing a field of the form sets that field to the text typed and
    leaves every other field as it was. A field the form already has keeps
    its position. A name the form does not have yet is added after the
    others, unless it is an array index (such as "7"): it is then placed
    after the fields whose names are smaller indices and before all the
    rest, as the object enumerates it. *)
Theorem handleChange_edits_one_field name value inputs :
  assoc name (handleChange name value inputs) = Some value /\
  (forall other, other <> name ->
     assoc other (handleChange name value inputs) = assoc other inputs) /\
  (In name (List.map fst inputs) ->
   List.map fst (handleChange name value inputs) = List.map fst inputs) /\
  (~ In name (List.map fst inputs) ->
   array_index name = None ->
   handleChange name value inputs = (inputs ++ [(name, value)])%list) /\
  (~ In name (List.map fst inputs) ->
   forall i, array_index name = Some i ->
   exists before after,
     inputs = (before ++ after)%list /\
     handleChange name value inputs = (before ++ (name, value) :: after)%list /\
     Forall (fun kv => exists j, array_index (fst kv) = Some j /\ (j < i)%N) before /\
     match after with
     | [] => True
     | kv :: _ => forall j, array_index (fst kv) = Some j -> ~ (j < i)%N
     end).
Proof.
  assert (~ In name (List.map fst inputs) -> assoc name inputs = None) as Hnew.
  { intros Hnot. destruct (assoc name inputs) as [x|] eqn:Hx; [|reflexivity].
    exfalso. apply Hnot. apply ServerFacts.assoc_In. eauto. }
  unfold handleChange. split; [apply GatewayFacts.assoc_assign_same|].
  split; [intros other Hne; now apply GatewayFacts.assoc_assign_other|].
  split; [apply handleChange_keeps_fields|].
  split.
  - intros Hnot Hname. unfold assign. rewrite (Hnew Hnot), Hname.
    now apply set_member_new.
  - intros Hnot i Hname. unfold assign. rewrite (Hnew Hnot), Hname.
    apply insert_index_place.
Qed.

(** *** [prepareInputData] *)






(** X18: when some field is not numeric, [prepareInputData] throws for the
    first such field in form order, naming its label and its text, and has
    no effect. *)
Theorem prepareInputData_throws_at_first b inputs log :
  ~ numeric b inputs ->
  exists before key value after,
    inputs = (before ++ (key, value) :: after)%list /\
    numeric b before /\
    isNaN (parseFloat b value) = true /\
    prepareInputData b inputs log
    = (Thrown ("Invalid numeric value for " +:+ field_label key +:+ ": " +:+ value), log).
Proof.
  unfold prepareInputData. generalize (@nil (string * parsed)).
  induction inputs as [|[key value] inputs IH]; intros acc Hnot.
  - exfalso. apply Hnot. constructor.
  - destruct (isNaN (parseFloat b value)) eqn:Hnan.
    + exists [], key, value, inputs. split; [reflexivity|]. split; [constructor|].
      split; [exact Hnan|].
      cbn [for_of]. unfold bind at 1. cbn [fst snd]. now rewrite Hnan.
    + destruct (IH (set_member key (parseFloat b value) acc))
        as (before & k & v & after & Hsplit & Hbefore & Hv & Hrun).
      * intros Hrest. apply Hnot. constructor; [exact Hnan|exact Hrest].
      * exists ((key, value) :: before), k, v, after.
        split; [now rewrite Hsplit|]. split; [constructor; [exact Hnan|exact Hbefore]|].
        split; [exact Hv|].
        cbn [for_of]. unfold bind at 1. cbn [fst snd]. rewrite Hnan. exact Hrun.
Qed.

Lemma mistyped_not_numeric : ~ numeric flaky mistyped.
Proof.
  intros H. unfold numeric in H. rewrite List.Forall_forall in H.
  specialize (H ("weight", "heavy")). cbn in H. discriminate H. tauto.
Qed.

Lemma prepareInputData_throws_at_first_witness :
  exists before key value after,
    mistyped = (before ++ (key, value) :: after)%list /\
    numeric flaky before /\
    isNaN (parseFloat flaky value) = true /\
    prepareInputData flaky mistyped []
    = (Thrown ("Invalid numeric value for " +:+ field_label key +:+ ": " +:+ value), []).
Proof.
  exact (prepareInputData_throws_at_first flaky mistyped [] mistyped_not_numeric).
Defined.

(** *** Single predict *)

Lemma handleSinglePredict_valid b inputs classifier modelType :
  filled inputs -> numeric b inputs ->
  trace (handleSinglePredict b inputs classifier modelType)
  = [ SetLoading true; SetError None; SetPrediction None;
      Fetch (single_request (numericInputs_of b inputs) classifier modelType);
      single_outcome b (fetch b (single_request (numericInputs_of b inputs)
                                   classifier modelType));
      SetLoading false ].
Proof.
  intros Hf Hn.
  unfold trace, handleSinglePredict, bind, try_finally, try_catch.
  rewrite (validateInputs_filled _ _ Hf). cbn [negb when ret emit app].
  rewrite (prepareInputData_numeric _ _ _ Hn).
  unfold post, member, bind, emit, throw, ret, single_request, single_outcome, when.
  cbn [app].
  destruct (fetch b _) as [[|] [data|msg]|msg]; try reflexivity.
  destruct data; reflexivity.
Qed.

(** X19: on a valid form single predict sends exactly one request, a POST of
    the parsed record to the URL of the selected classifier and model, and
    then makes exactly one update: the response body, as it is, becomes the
    prediction when the response is ok; otherwise the error becomes the
    body's error member (or "Prediction failed"), or the message of what was
    thrown. *)
Theorem single_predict_one_request_one_outcome b inputs classifier modelType v :
  filled inputs -> numeric b inputs ->
  fetched (trace (handleSinglePredict b inputs classifier modelType))
  = [ single_request (numericInputs_of b inputs) classifier modelType ] /\
  match fetch b (single_request (numericInputs_of b inputs) classifier modelType) with
  | Responded true (Json data) =>
      render v (trace (handleSinglePredict b inputs classifier modelType))
      = {| prediction := Some (Single data); loading := false; error := None |}
  | Responded false (Json (JObj fields)) =>
      render v (trace (handleSinglePredict b inputs classifier modelType))
      = {| prediction := None; loading := false;
           error := Some (String_ b (or_else (assoc "error" fields)
                                             (JStr "Prediction failed"))) |}
  | Responded _ (NotJson msg) | Failed msg =>
      render v (trace (handleSinglePredict b inputs classifier modelType))
      = {| prediction := None; loading := false; error := Some msg |}
  | Responded false (Json _) =>
      exists msg,
        render v (trace (handleSinglePredict b inputs classifier modelType))
        = {| prediction := None; loading := false; error := Some msg |}
  end.
Proof.
  intros Hf Hn. rewrite (handleSinglePredict_valid _ _ _ _ Hf Hn).
  unfold single_outcome.
  destruct (fetch b _) as [[|] [data|msg]|msg]; try (split; reflexivity).
  destruct data; cbn; split; eauto.
Qed.

Lemma single_predict_one_request_one_outcome_witness :
  fetched (trace (handleSinglePredict unavailable patient "BP_Class" "RandomForest"))
  = [ single_request (numericInputs_of unavailable patient) "BP_Class" "RandomForest" ] /\
  render blank (trace (handleSinglePredict unavailable patient "BP_Class" "RandomForest"))
  = {| prediction := None; loading := false;
       error := Some "Python service is not running. Please start the Flask server." |}.
Proof.
  exact (single_predict_one_request_one_outcome unavailable patient "BP_Class" "RandomForest"
           blank patient_filled (patient_numeric : numeric unavailable patient)).
Defined.

(** *** What a submit leaves on screen *)

(** X20: a submit with an empty field changes nothing but the error: the
    loading flag and the prediction shown before stay as they were, and the
    error names every empty field, in either mode. *)
Theorem empty_field_changes_only_the_error b predictionMode inputs classifier modelType v :
  ~ filled inputs ->
  render v (trace (handleSubmit b predictionMode inputs classifier modelType))
  = {| prediction := prediction v; loading := loading v;
       error := Some (missing_fields inputs) |} /\
  forall key, In (key, "") inputs -> mentions (missing_fields inputs) (field_label key).
Proof.
  intros Hf. split; [|intros key; apply missing_fields_mentions].
  destruct predictionMode; cbn [handleSubmit];
    [rewrite (handleSinglePredict_not_filled _ _ _ _ Hf)
    |rewrite (handlePredictAll_not_filled _ _ Hf)]; reflexivity.
Qed.

Lemma initial_inputs_not_filled : ~ filled initial_inputs.
Proof. intros H. inversion H as [|? ? Hage _]. now apply Hage. Qed.

Lemma empty_field_changes_only_the_error_witness :
  render blank (trace (handleSubmit flaky all initial_inputs "BP_Class" "RandomForest"))
  = {| prediction := None; loading := false;
       error := Some (missing_fields initial_inputs) |}.
Proof.
  apply (empty_field_changes_only_the_error flaky all initial_inputs "BP_Class" "RandomForest"
           blank initial_inputs_not_filled).
Defined.

(** X21: a submit that passes the empty-field check always ends with the
    loading flag off and with exactly one of two states: a value handed to
    [setPrediction] (the response body, or the table) and no error, or an
    error message and no prediction. This holds in either mode and whatever
    the network does. *)
Theorem submit_ends_with_result_or_error b predictionMode inputs classifier modelType v :
  filled inputs ->
  loading (render v (trace (handleSubmit b predictionMode inputs classifier modelType)))
  = false /\
  ((exists p,
      prediction (render v (trace (handleSubmit b predictionMode inputs classifier modelType)))
      = Some p /\
      error (render v (trace (handleSubmit b predictionMode inputs classifier modelType)))
      = None) \/
   (exists msg,
      prediction (render v (trace (handleSubmit b predictionMode inputs classifier modelType)))
      = None /\
      error (render v (trace (handleSubmit b predictionMode inputs classifier modelType)))
      = Some msg)).
Proof.
  intros Hf. destruct (numeric_dec b inputs) as [Hn|Hn].
  - destruct predictionMode; cbn [handleSubmit].
    + rewrite (handleSinglePredict_valid _ _ _ _ Hf Hn). unfold single_outcome.
      destruct (fetch b _) as [[|] [data|msg]|msg];
        try (split; [reflexivity|]; first [left; eexists; split; reflexivity
                                          |right; eexists; split; reflexivity]).
      destruct data; cbn; split; try reflexivity; right; eexists; split; reflexivity.
    + split.
      * rewrite (handlePredictAll_valid _ _ Hf Hn).
        rewrite <- (List.map_map (request_for (numericInputs_of b inputs)) Fetch).
        now rewrite !render_app, render_fetches.
      * left. eexists. split; [now apply handlePredictAll_shows|].
        rewrite (handlePredictAll_valid _ _ Hf Hn).
        rewrite <- (List.map_map (request_for (numericInputs_of b inputs)) Fetch).
        now rewrite !render_app, render_fetches.
  - assert (exists msg,
              trace (handleSubmit b predictionMode inputs classifier modelType)
              = [ SetLoading true; SetError None; SetPrediction None;
                  SetError (Some msg); SetLoading false ]) as (msg & ->).
    { destruct predictionMode; cbn [handleSubmit].
      - destruct (handleSinglePredict_not_numeric b inputs classifier modelType Hf Hn)
          as (key & value & _ & _ & ->). eauto.
      - destruct (handlePredictAll_not_numeric b inputs Hf Hn)
          as (key & value & _ & _ & ->). eauto. }
    split; [reflexivity|]. right. exists msg. split; reflexivity.
Qed.

Lemma submit_ends_with_result_or_error_witness :
  loading (render blank (trace (handleSubmit offline single patient "BP_Class" "RandomForest")))
  = false.
Proof.
  apply (submit_ends_with_result_or_error offline single patient "BP_Class" "RandomForest"
           blank patient_filled).
Defined.

(** X22: the complete analysis is published however many requests fail: when
    every one of the 9 throws, the run still ends with the table published,
    the loading flag off and no error set, and all 9 cells are error cells
    carrying the thrown messages. *)
Theorem all_failures_still_publish b inputs v :
  filled inputs -> numeric b inputs ->
  (forall pair, In pair pairs ->
     exists msg, throws (fetch b (request_for (numericInputs_of b inputs) pair)) msg) ->
  exists allPredictions,
    render v (trace (handlePredictAll b inputs))
    = {| prediction := Some (Complete allPredictions (numericInputs_of b inputs));
         loading := false; error := None |} /\
    List.length (List.filter is_error (cells allPredictions)) = 9%nat /\
    (forall pair msg,
       In pair pairs ->
       throws (fetch b (request_for (numericInputs_of b inputs) pair)) msg ->
       cell allPredictions pair = Some (ErrorEntry (JStr msg))).
Proof.
  intros Hf Hn Hall. exists (aggregate b (numericInputs_of b inputs)).
  split; [|split].
  - rewrite (handlePredictAll_valid _ _ Hf Hn).
    rewrite <- (List.map_map (request_for (numericInputs_of b inputs)) Fetch).
    now rewrite !render_app, render_fetches.
  - unfold aggregate. rewrite cells_fan_out, filter_map_comm, length_map.
    assert (List.filter
              (fun a => is_error (fst a, snd a,
                                  outcome_entry (fetch b (request_for (numericInputs_of b inputs) a))))
              stored_pairs = stored_pairs) as ->; [|reflexivity].
    apply List.forallb_filter_id, List.forallb_forall. intros pair Hp.
    apply stored_pairs_pairs in Hp. destruct (Hall pair Hp) as (msg & Hmsg).
    unfold is_error. cbn [snd]. now rewrite (outcome_entry_throws _ _ Hmsg).
  - intros pair msg Hp Hmsg.
    now rewrite (cells_are_independent _ _ _ Hp), (outcome_entry_throws _ _ Hmsg).
Qed.

Lemma all_failures_still_publish_witness :
  exists allPredictions,
    render blank (trace (handlePredictAll offline patient))
    = {| prediction := Some (Complete allPredictions (numericInputs_of offline patient));
         loading := false; error := None |} /\
    List.length (List.filter is_error (cells allPredictions)) = 9%nat.
Proof.
  destruct (all_failures_still_publish offline patient blank patient_filled
              (patient_numeric : numeric offline patient))
    as (allPredictions & Hshown & Hnine & _).
  - intros pair _. exists "Failed to fetch". left. reflexivity.
  - exists allPredictions. split; [exact Hshown|exact Hnine].
Defined.

(** *** Showing a result *)

(** X23: the class, the icon and the text of a result always agree: a falsy
    prediction (missing, null, 0, the empty string) gets no class, no icon
    and "N/A"; a prediction that is 1, or an array starting with 1, gets the
    red class, the alert icon and "Positive"; anything else gets the green
    class, the check icon and "Negative". *)
Theorem result_display_agrees pred :
  (truthy pred = false /\
   getResultClass pred = "" /\ getResultIcon pred = None /\ getResultText pred = "N/A") \/
  (exists j, pred = Some j /\ truthy_json j = true /\ is_one (first_or_self j) = true /\
   getResultClass pred = "bg-red-50 border-red-200" /\
   getResultIcon pred = Some AlertCircle /\ getResultText pred = "Positive") \/
  (exists j, pred = Some j /\ truthy_json j = true /\ is_one (first_or_self j) = false /\
   getResultClass pred = "bg-green-50 border-green-200" /\
   getResultIcon pred = Some CheckCircle /\ getResultText pred = "Negative").
Proof.
  destruct pred as [j|]; [|left; repeat split].
  unfold getResultClass, getResultIcon, getResultText. cbn [truthy].
  destruct (truthy_json j) eqn:Ht; cbn [negb]; [|left; repeat split].
  destruct (is_one (first_or_self j)) eqn:Hone; right; [left|right];
    exists j; repeat split; assumption.
Qed.

(** X24: a prediction of 0 that is not wrapped in an array is falsy, so it is
    shown as "N/A" with no class and no icon; wrapped in an array it is
    shown as "Negative". *)
Theorem zero_prediction_is_not_available e rest :
  getResultText (Some (JNum (Num 0 e))) = "N/A" /\
  getResultClass (Some (JNum (Num 0 e))) = "" /\
  getResultIcon (Some (JNum (Num 0 e))) = None /\
  getResultText (Some (JArr (JNum (Num 0 e) :: rest))) = "Negative".
Proof.
  repeat split. unfold getResultText. cbn.
  unfold number_is_one. cbn [mantissa exponent].
  destruct (0 <=? e) eqn:He; [now rewrite Z.mul_0_l|].
  assert (0 < 10 ^ (- e)) by (apply Z.pow_pos_nonneg; lia).
  destruct (Z.eqb_spec 0 (10 ^ (- e))); [lia|reflexivity].
Qed.

(** X25: a cell stored for a request that was answered (whatever the status
    and the body) is drawn by the branch its kind calls for: an error cell
    stored from an answer has a truthy error, so [if (result.error)] is
    taken and the card carries that error; a result cell is drawn with the
    class, icon and text of its prediction. *)
Theorem answered_cells_take_their_branch ok data :
  match outcome_entry (Responded ok (Json data)) with
  | ErrorEntry error =>
      render_cell (outcome_entry (Responded ok (Json data))) = ErrorCard error
  | Result prediction _ _ =>
      render_cell (outcome_entry (Responded ok (Json data)))
      = ResultCard (getResultClass prediction) (getResultIcon prediction)
                   (getResultText prediction)
  end.
Proof.
  unfold outcome_entry.
  destruct data as [| | | | |fields]; try (destruct ok; reflexivity).
  destruct (ok && truthy (assoc "success" fields)); [reflexivity|].
  unfold render_cell.
  now rewrite (GatewayFacts.or_else_truthy (assoc "error" fields) (JStr "Prediction failed")).
Qed.

(** A request that throws with an empty message is stored as an error cell
    but falls to the result branch, drawn as "N/A". *)
Example empty_message_falls_to_result_branch :
  render_cell (outcome_entry (Failed "")) = ResultCard "" None "N/A".
Proof. reflexivity. Qed.

(** *** Mode buttons and result panels *)

Lemma published_quiet events : Forall quiet events -> published events = [].
Proof.
  induction 1 as [|e events He _ IH]; [reflexivity|].
  unfold published in *. cbn [flat_map]. rewrite IH. destruct e as [| [msg|] | [p|] |]; try reflexivity; destruct He.
Qed.

Lemma render_quiet events :
  Forall quiet events ->
  forall v, error v = None -> error (render v events) = None.
Proof.
  induction 1 as [|e events He _ IH]; intros v Hv; [exact Hv|].
  apply IH. destruct e as [| [msg|] | [p|] |]; try exact Hv; try reflexivity; destruct He.
Qed.

(** A handler whose updates are quiet until it publishes and lowers the
    loading flag ends the same way wherever a mode button was clicked before
    the publication. *)
Lemma finishing_after_switch prefix p before after v :
  Forall quiet prefix ->
  (prefix ++ [SetPrediction (Some p); SetLoading false])%list = (before ++ after)%list ->
  published before = [] ->
  error v = None ->
  render v after = {| prediction := Some p; loading := false; error := None |}.
Proof.
  intros Hq Hsplit Hpub Hv.
  destruct (app_eq_app _ _ _ _ Hsplit) as (l & [[Hprefix Hafter]|[Hbefore Htail]]).
  - subst after. rewrite Hprefix in Hq. apply Forall_app in Hq as [_ Hl].
    rewrite render_app. cbn. now rewrite (render_quiet _ Hl _ Hv).
  - destruct l as [|e l].
    + cbn in Htail. subst after. cbn. now rewrite Hv.
    + injection Htail as <- _. subst before.
      rewrite published_app in Hpub. apply app_eq_nil in Hpub as [_ Hpub]. discriminate Hpub.
Qed.

Lemma fetches_quiet (requests : list fetch_request) : Forall quiet (List.map Fetch requests).
Proof. induction requests; constructor; [exact I|assumption]. Qed.

(** X26: single mode trusts the status alone. When the answer is OK but its
    body has no truthy [success], the body is stored as the prediction, no
    error is set, and no result panel is drawn: the user sees nothing. The
    complete analysis stores the same answer as a failed cell. *)
Theorem ok_answer_without_success_draws_nothing b inputs classifier modelType s data :
  filled inputs -> numeric b inputs ->
  fetch b (single_request (numericInputs_of b inputs) classifier modelType)
  = Responded true (Json data) ->
  has_success (Some (Single data)) = false ->
  shown (handled s (trace (handleSinglePredict b inputs classifier modelType)))
  = {| prediction := Some (Single data); loading := false; error := None |} /\
  result_panel (handled s (trace (handleSinglePredict b inputs classifier modelType)))
  = NoPanel /\
  exists error, outcome_entry (Responded true (Json data)) = ErrorEntry error.
Proof.
  intros Hf Hn Hfetch Hsuccess.
  assert (shown (handled s (trace (handleSinglePredict b inputs classifier modelType)))
          = {| prediction := Some (Single data); loading := false; error := None |}) as Hshown.
  { cbn [handled shown]. rewrite (handleSinglePredict_valid _ _ _ _ Hf Hn), Hfetch.
    reflexivity. }
  split; [exact Hshown|]. split.
  - unfold result_panel. rewrite Hshown. cbn [prediction]. now rewrite Hsuccess.
  - unfold outcome_entry. destruct data as [| | | | |fields]; eauto.
    cbn in Hsuccess. rewrite Hsuccess. eauto.
Qed.

Lemma ok_answer_without_success_draws_nothing_witness :
  result_panel (handled {| shown := blank; predictionMode := single |}
                        (trace (handleSinglePredict bare patient "BP_Class" "RandomForest")))
  = NoPanel.
Proof.
  apply (ok_answer_without_success_draws_nothing bare patient "BP_Class" "RandomForest"
           {| shown := blank; predictionMode := single |}
           (JObj [ ("prediction", JNum (Num 1 0)) ])
           patient_filled (patient_numeric : numeric bare patient) eq_refl eq_refl).
Defined.

(** X27: the mode buttons stay enabled while a complete analysis runs. If
    "Single Prediction" is clicked at any moment before the table is
    published, the analysis still publishes it; the screen is then in single
    mode holding the table, and the single panel is drawn from it with no
    class, no icon and the text "N/A". *)
Theorem analysis_finishing_in_single_mode b inputs s before after :
  filled inputs -> numeric b inputs ->
  trace (handlePredictAll b inputs) = (before ++ after)%list ->
  published before = [] ->
  shown (handled (select_mode single (handled s before)) after)
  = {| prediction := Some (Complete (aggregate b (numericInputs_of b inputs))
                                    (numericInputs_of b inputs));
       loading := false; error := None |} /\
  result_panel (handled (select_mode single (handled s before)) after)
  = SinglePanel "" None "N/A".
Proof.
  intros Hf Hn Hsplit Hpub.
  assert (shown (handled (select_mode single (handled s before)) after)
          = {| prediction := Some (Complete (aggregate b (numericInputs_of b inputs))
                                            (numericInputs_of b inputs));
               loading := false; error := None |}) as Hshown.
  { cbn [handled select_mode shown predictionMode].
    apply (finishing_after_switch
             ([ SetLoading true; SetError None; SetPrediction None ]
              ++ List.map Fetch (List.map (request_for (numericInputs_of b inputs)) pairs))
             _ before); [| |exact Hpub|reflexivity].
    - apply Forall_app. split; [repeat constructor|apply fetches_quiet].
    - rewrite <- Hsplit, (handlePredictAll_valid _ _ Hf Hn), List.map_map, <- !app_assoc.
      reflexivity. }
  split; [exact Hshown|]. unfold result_panel. rewrite Hshown. reflexivity.
Qed.

Lemma analysis_finishing_in_single_mode_witness :
  result_panel
    (handled (select_mode single
                (handled {| shown := blank; predictionMode := all |}
                         (firstn 5 (trace (handlePredictAll flaky patient)))))
             (skipn 5 (trace (handlePredictAll flaky patient))))
  = SinglePanel "" None "N/A".
Proof.
  apply (analysis_finishing_in_single_mode flaky patient
           {| shown := blank; predictionMode := all |}
           (firstn 5 (trace (handlePredictAll flaky patient)))
           (skipn 5 (trace (handlePredictAll flaky patient)))
           patient_filled patient_numeric).
  - symmetry. apply firstn_skipn.
  - rewrite (handlePredictAll_valid _ _ patient_filled patient_numeric). reflexivity.
Defined.

(** X28: the other way round. If "Complete Analysis" is clicked while a single
    prediction is awaited and the answer then comes back OK with a truthy
    [success] and no [predictions] member (as every success reply of the
    gateway's single-predict route is), the complete panel is entered with
    that answer and [Object.entries(prediction.predictions)] throws during
    rendering. *)
Theorem single_answer_arriving_in_all_mode b inputs classifier modelType s before after fields :
  filled inputs -> numeric b inputs ->
  fetch b (single_request (numericInputs_of b inputs) classifier modelType)
  = Responded true (Json (JObj fields)) ->
  truthy (assoc "success" fields) = true ->
  assoc "predictions" fields = None \/ assoc "predictions" fields = Some JNull ->
  trace (handleSinglePredict b inputs classifier modelType) = (before ++ after)%list ->
  published before = [] ->
  shown (handled (select_mode all (handled s before)) after)
  = {| prediction := Some (Single (JObj fields)); loading := false; error := None |} /\
  result_panel (handled (select_mode all (handled s before)) after)
  = RenderError (TypeError "Cannot convert undefined or null to object").
Proof.
  intros Hf Hn Hfetch Hsuccess Hpredictions Hsplit Hpub.
  assert (shown (handled (select_mode all (handled s before)) after)
          = {| prediction := Some (Single (JObj fields)); loading := false; error := None |})
    as Hshown.
  { cbn [handled select_mode shown predictionMode].
    apply (finishing_after_switch
             [ SetLoading true; SetError None; SetPrediction None;
               Fetch (single_request (numericInputs_of b inputs) classifier modelType) ]
             _ before); [| |exact Hpub|reflexivity].
    - repeat constructor.
    - rewrite <- Hsplit, (handleSinglePredict_valid _ _ _ _ Hf Hn), Hfetch. reflexivity. }
  split; [exact Hshown|]. unfold result_panel. rewrite Hshown.
  cbn [prediction has_success truthy_json andb get handled select_mode predictionMode].
  rewrite Hsuccess. cbn [negb]. destruct Hpredictions as [-> | ->]; reflexivity.
Qed.

Lemma single_answer_arriving_in_all_mode_witness :
  result_panel
    (handled (select_mode all
                (handled {| shown := blank; predictionMode := single |}
                   (firstn 4 (trace (handleSinglePredict answering patient
                                       "BP_Class" "GradientBoosting")))))
             (skipn 4 (trace (handleSinglePredict answering patient
                                "BP_Class" "GradientBoosting"))))
  = RenderError (TypeError "Cannot convert undefined or null to object").
Proof.
  apply (single_answer_arriving_in_all_mode answering patient "BP_Class" "GradientBoosting"
           {| shown := blank; predictionMode := single |}
           (firstn 4 (trace (handleSinglePredict answering patient
                               "BP_Class" "GradientBoosting")))
           (skipn 4 (trace (handleSinglePredict answering patient
                              "BP_Class" "GradientBoosting")))
           [ ("success", JBool true);
             ("classifier", JStr "BP_Class");
             ("prediction", JNum (Num 1 0));
             ("probabilities", JArr [ JArr [ JNum (Num 2 (-1)); JNum (Num 8 (-1)) ] ]);
             ("class_labels", JArr [ JStr "Negative"; JStr "Positive" ]);
             ("model", JStr "GradientBoosting") ]
           patient_filled (patient_numeric : numeric answering patient) eq_refl eq_refl).
  - left. reflexivity.
  - symmetry. apply firstn_skipn.
  - reflexivity.
Defined.

End ComponentFacts.
